(** * The GitHub OAuth provider of the auth framework (oauth/github/github.go)

    A shallow embedding of [New], the default [AuthorizeHandler] closure,
    [OAuthConfig] and [Login], together with the small part of the libraries
    they call (jwt-go, oauth2, go-github, gorm), and the properties of the
    provider stated over it. *)

From Stdlib Require Import String Ascii List ZArith Bool Lia DecimalString.
From Stdlib Require Import DecimalZ.
Import ListNotations.
Open Scope string_scope.

(** ** Go values shared by all packages *)

(** Go's [error] values that the provider returns or propagates.
    [ErrUnauthorized] and [ErrInvalidAccount] are the two sentinels of the
    [auth] package; [ErrRecordNotFound] is gorm's; [ErrorString] is what
    [errors.New] and [fmt.Errorf] build; [ValidationError] is jwt-go's
    [*ValidationError] with its [Inner] error, its text and its [Errors]
    bit field. *)
#[warnings="-register-all"] Inductive error : Type :=
| ErrUnauthorized
| ErrInvalidAccount
| ErrRecordNotFound
| ErrorString (msg : string)
| ValidationError (Inner : option error) (text : string) (Errors : Z).

(** [err.Error()]: a validation error prints its inner error when it has one. *)
Fixpoint Error (e : error) : string :=
  match e with
  | ErrUnauthorized => "Unauthorized"
  | ErrInvalidAccount => "invalid account"
  | ErrRecordNotFound => "record not found"
  | ErrorString msg => msg
  | ValidationError (Some inner) _ _ => Error inner
  | ValidationError None "" _ => "token is invalid"
  | ValidationError None text _ => text
  end.

(** [fmt.Sprint] of a Go integer: its decimal rendering. *)
Definition Sprint (z : Z) : string := NilZero.string_of_int (Z.to_int z).

(** ** github.com/dgrijalva/jwt-go, as far as the provider calls it *)

Module jwt.

(** The registered signing methods ([GetSigningMethod]'s table). *)
Inductive SigningMethod : Type :=
| HS256 | HS384 | HS512
| RS256 | RS384 | RS512
| PS256 | PS384 | PS512
| ES256 | ES384 | ES512
| none.

Definition SigningMethod_eqb (a b : SigningMethod) : bool :=
  match a, b with
  | HS256, HS256 | HS384, HS384 | HS512, HS512
  | RS256, RS256 | RS384, RS384 | RS512, RS512
  | PS256, PS256 | PS384, PS384 | PS512, PS512
  | ES256, ES256 | ES384, ES384 | ES512, ES512
  | none, none => true
  | _, _ => false
  end.

Definition Alg (m : SigningMethod) : string :=
  match m with
  | HS256 => "HS256" | HS384 => "HS384" | HS512 => "HS512"
  | RS256 => "RS256" | RS384 => "RS384" | RS512 => "RS512"
  | PS256 => "PS256" | PS384 => "PS384" | PS512 => "PS512"
  | ES256 => "ES256" | ES384 => "ES384" | ES512 => "ES512"
  | none => "none"
  end.

Definition registry : list SigningMethod :=
  [HS256; HS384; HS512; RS256; RS384; RS512;
   PS256; PS384; PS512; ES256; ES384; ES512; none].

Definition GetSigningMethod (alg : string) : option SigningMethod :=
  find (fun m => String.eqb (Alg m) alg) registry.

Arguments GetSigningMethod : simpl never.

(** The HMAC family is the one that signs and verifies with a [[]byte] key,
    which is what the provider hands over. *)
Definition isHMAC (m : SigningMethod) : bool :=
  match m with
  | HS256 | HS384 | HS512 => true
  | _ => false
  end.

(** A decoded JSON value of a claim set. *)
Inductive Value : Type :=
| VString (s : string)
| VNumber (n : Z)
| VOther.

(** [MapClaims]: the claim set as a JSON object. *)
Definition MapClaims : Type := list (string * Value).

Fixpoint get (m : MapClaims) (k : string) : option Value :=
  match m with
  | [] => None
  | (k', v) :: m' => if String.eqb k' k then Some v else get m' k
  end.

(** [StandardClaims], reduced to the registered claims the code and the
    library's validation read. *)
Record StandardClaims : Type := {
  Subject : string;
  ExpiresAt : Z;
  IssuedAt : Z;
  NotBefore : Z
}.

(** The dynamic type behind the [Claims] interface of a token. *)
Inductive Claims : Type :=
| ClaimsMap (m : MapClaims)
| ClaimsStandard (c : StandardClaims)
| ClaimsStandardPtr (c : StandardClaims).

(** The compact serialization, up to the base64url and JSON codec: a token
    string either does not split into three segments at its dots (the empty
    string is such a string), or has a header or claims segment that does
    not decode, or carries a header with its [alg] entry (if it has one
    that is a string), a claim object and the signature its third segment
    decodes to, or carries header and claims and a third segment that does
    not decode (with the decoder's error). *)
Inductive TokenString : Type :=
| BadSegments
| BadEncoding (cause : string)
| Compact (alg : option string) (claims : MapClaims) (signature : string)
| CompactUndecodable (alg : option string) (claims : MapClaims)
                     (segment cause : string).

(** The [alg] entry of the header, when the token string has a header
    that decodes and the entry is a string. *)
Definition headerAlg (t : TokenString) : option string :=
  match t with
  | Compact alg _ _ | CompactUndecodable alg _ _ _ => alg
  | _ => None
  end.

(** What a signature is computed over: the first two segments. *)
Definition SigningInput : Type := (string * MapClaims)%type.

Record Token : Type := {
  Raw : TokenString;
  Method : option SigningMethod;
  TokenClaims : option Claims;
  Signature : string;
  Valid : bool
}.

Definition ValidationErrorMalformed : Z := 1.
Definition ValidationErrorUnverifiable : Z := 2.
Definition ValidationErrorSignatureInvalid : Z := 4.
Definition ValidationErrorExpired : Z := 16.
Definition ValidationErrorIssuedAt : Z := 32.
Definition ValidationErrorNotValidYet : Z := 128.

(** The fields of a [*ValidationError] under construction. *)
Record ValidationErr : Type := {
  vInner : option error;
  vText : string;
  vErrors : Z
}.

Definition toError (v : ValidationErr) : error :=
  ValidationError (vInner v) (vText v) (vErrors v).

Definition ErrSignatureInvalid : error := ErrorString "signature is invalid".
Definition ErrInvalidKey : error := ErrorString "key is invalid".
Definition ErrInvalidKeyType : error := ErrorString "key is of invalid type".
Definition NoneSignatureTypeDisallowedError : error :=
  ValidationError None "'none' signature type is not allowed"
    ValidationErrorSignatureInvalid.

(** JSON encoding of [StandardClaims]: every field is [omitempty]. *)
Definition encodeStandardClaims (c : StandardClaims) : MapClaims :=
  ((if Z.eqb (ExpiresAt c) 0 then [] else [("exp", VNumber (ExpiresAt c))]) ++
   (if Z.eqb (IssuedAt c) 0 then [] else [("iat", VNumber (IssuedAt c))]) ++
   (if Z.eqb (NotBefore c) 0 then [] else [("nbf", VNumber (NotBefore c))]) ++
   (if String.eqb (Subject c) "" then [] else [("sub", VString (Subject c))])
  )%list.

Definition encodeClaims (c : Claims) : MapClaims :=
  match c with
  | ClaimsMap m => m
  | ClaimsStandard c | ClaimsStandardPtr c => encodeStandardClaims c
  end.

Section Crypto.

(** The keyed MAC of the HMAC methods and the clock the claim validation
    reads ([TimeFunc]). *)
Variable hmac : SigningMethod -> string -> SigningInput -> string.
Variable now : Z.

(** [method.Sign(signingString, key)] with a [[]byte] key. *)
Definition Sign (m : SigningMethod) (input : SigningInput) (key : string)
  : string * option error :=
  if isHMAC m then (hmac m key input, None)
  else match m with
       | none => ("", Some NoneSignatureTypeDisallowedError)
       | RS256 | RS384 | RS512 => ("", Some ErrInvalidKey)
       | _ => ("", Some ErrInvalidKeyType)
       end.

(** [method.Verify(signingString, signature, key)] with a [[]byte] key,
    on a signature segment that decodes. *)
Definition Verify (m : SigningMethod) (input : SigningInput)
           (signature key : string) : option error :=
  if isHMAC m then
    if String.eqb signature (hmac m key input) then None
    else Some ErrSignatureInvalid
  else match m with
       | none => Some NoneSignatureTypeDisallowedError
       | PS256 | PS384 | PS512 => Some ErrInvalidKey
       | _ => Some ErrInvalidKeyType
       end.

(** [method.Verify] on a signature segment that does not decode: every
    method but "none" answers with the decoder's error; "none" looks at
    the key first. *)
Definition VerifyUndecodable (m : SigningMethod) (cause : string)
  : option error :=
  match m with
  | none => Some NoneSignatureTypeDisallowedError
  | _ => Some (ErrorString cause)
  end.

(** [NewWithClaims(method, claims)]. *)
Definition NewWithClaims (m : SigningMethod) (c : Claims) : Token :=
  {| Raw := BadSegments; Method := Some m; TokenClaims := Some c;
     Signature := ""; Valid := false |}.

(** [token.SignedString(key)]: on a signing error the string is empty. *)
Definition SignedString (t : Token) (key : string)
  : TokenString * option error :=
  match Method t, TokenClaims t with
  | Some m, Some c =>
      let input := (Alg m, encodeClaims c) in
      match Sign m input key with
      | (sig, None) => (Compact (Some (Alg m)) (encodeClaims c) sig, None)
      | (_, Some e) => (BadSegments, Some e)
      end
  | _, _ => (BadSegments, Some (ErrorString "invalid token"))
  end.

Definition verifyExp (exp : Z) : bool :=
  if Z.eqb exp 0 then true else Z.leb now exp.
Definition verifyIat (iat : Z) : bool :=
  if Z.eqb iat 0 then true else Z.leb iat now.
Definition verifyNbf (nbf : Z) : bool :=
  if Z.eqb nbf 0 then true else Z.leb nbf now.

Definition verifyNumeric (check : Z -> bool) (m : MapClaims) (k : string)
  : bool :=
  match get m k with
  | Some (VNumber n) => check n
  | _ => true
  end.

(** [MapClaims.Valid()]: the time claims, none of them required; each
    failed check replaces the inner error and adds its flag.  The result
    is valid when no flag is set. *)
Definition MapClaimsValid (m : MapClaims) : ValidationErr :=
  let v0 := {| vInner := None; vText := ""; vErrors := 0 |} in
  let v1 := if verifyNumeric verifyExp m "exp" then v0
            else {| vInner := Some (ErrorString "Token is expired");
                    vText := "";
                    vErrors := Z.lor (vErrors v0) ValidationErrorExpired |} in
  let v2 := if verifyNumeric verifyIat m "iat" then v1
            else {| vInner := Some (ErrorString "Token used before issued");
                    vText := "";
                    vErrors := Z.lor (vErrors v1) ValidationErrorIssuedAt |} in
  if verifyNumeric verifyNbf m "nbf" then v2
  else {| vInner := Some (ErrorString "Token is not valid yet");
          vText := "";
          vErrors := Z.lor (vErrors v2) ValidationErrorNotValidYet |}.

(** The key function the caller passes to [Parse]. *)
Definition Keyfunc : Type := Token -> string * option error.

(** The parser past the split and the decoding of header and claims:
    method lookup, key function, claim validation and the check of the
    signature ([verify] is the method's [Verify] on the third segment). *)
Definition parseSegments (tokenString : TokenString) (alg : option string)
           (claims : MapClaims) (segment : string)
           (verify : SigningMethod -> SigningInput -> string -> option error)
           (keyFunc : Keyfunc) : option Token * option error :=
  let token0 := {| Raw := tokenString; Method := None;
                   TokenClaims := Some (ClaimsMap claims);
                   Signature := ""; Valid := false |} in
  match alg with
  | None =>
      (Some token0,
       Some (ValidationError None "signing method (alg) is unspecified."
               ValidationErrorUnverifiable))
  | Some name =>
      match GetSigningMethod name with
      | None =>
          (Some token0,
           Some (ValidationError None
                   "signing method (alg) is unavailable."
                   ValidationErrorUnverifiable))
      | Some m =>
          let token1 := {| Raw := tokenString; Method := Some m;
                           TokenClaims := Some (ClaimsMap claims);
                           Signature := ""; Valid := false |} in
          match keyFunc token1 with
          | (_, Some (ValidationError i t f)) =>
              (Some token1, Some (ValidationError i t f))
          | (_, Some e) =>
              (Some token1,
               Some (ValidationError (Some e) ""
                       ValidationErrorUnverifiable))
          | (key, None) =>
              let vErr := MapClaimsValid claims in
              let vErr' :=
                match verify m (name, claims) key with
                | Some e =>
                    {| vInner := Some e; vText := vText vErr;
                       vErrors := Z.lor (vErrors vErr)
                                    ValidationErrorSignatureInvalid |}
                | None => vErr
                end in
              let token2 := {| Raw := tokenString; Method := Some m;
                               TokenClaims := Some (ClaimsMap claims);
                               Signature := segment;
                               Valid := Z.eqb (vErrors vErr') 0 |} in
              if Z.eqb (vErrors vErr') 0 then (Some token2, None)
              else (Some token2, Some (toError vErr'))
          end
      end
  end.

(** [jwt.Parse(tokenString, keyFunc)], that is
    [new(Parser).ParseWithClaims(tokenString, MapClaims{}, keyFunc)]:
    the claims of the token it returns are always a [MapClaims].  The
    result is the pair (token, err); the token is nil only for a string
    that has not three segments. *)
Definition Parse (tokenString : TokenString) (keyFunc : Keyfunc)
  : option Token * option error :=
  match tokenString with
  | BadSegments =>
      (None, Some (ValidationError None
                     "token contains an invalid number of segments"
                     ValidationErrorMalformed))
  | BadEncoding cause =>
      (Some {| Raw := tokenString; Method := None; TokenClaims := None;
               Signature := ""; Valid := false |},
       Some (ValidationError (Some (ErrorString cause)) ""
               ValidationErrorMalformed))
  | Compact alg claims signature =>
      parseSegments tokenString alg claims signature
        (fun m input key => Verify m input signature key) keyFunc
  | CompactUndecodable alg claims segment cause =>
      parseSegments tokenString alg claims segment
        (fun m _ _ => VerifyUndecodable m cause) keyFunc
  end.

End Crypto.

End jwt.

(** ** golang.org/x/oauth2: the client configuration *)

Module oauth2.

Record Endpoint : Type := {
  AuthURL : string;
  TokenURL : string
}.

Record Config : Type := {
  ClientID : string;
  ClientSecret : string;
  Endpoint_ : Endpoint;
  RedirectURL : string;
  Scopes : list string
}.

(** [cfg.AuthCodeURL(state)]: the authorization URL, kept as its endpoint
    and its query parameters; the state parameter carries the token string. *)
Record AuthCodeURL_ : Type := {
  endpoint : string;
  response_type : string;
  client_id : string;
  redirect_uri : string;
  scope : list string;
  state : jwt.TokenString
}.

Definition AuthCodeURL (cfg : Config) (st : jwt.TokenString) : AuthCodeURL_ :=
  {| endpoint := AuthURL (Endpoint_ cfg);
     response_type := "code";
     client_id := ClientID cfg;
     redirect_uri := RedirectURL cfg;
     scope := Scopes cfg;
     state := st |}.

End oauth2.

(** ** auth_identity and the store *)

Module auth_identity.

(** Modelled from the spec: [auth_identity.Basic], the join key record
    (AuthInfo) declared in the repository's auth_identity package, with the
    attributes the spec lists: provider, uid and userId. *)
Record Basic : Type := {
  Provider : string;
  UID : string;
  UserID : string
}.

Definition zero : Basic := {| Provider := ""; UID := ""; UserID := "" |}.

End auth_identity.

Module gorm.

Import auth_identity.

(** A row of the host's user model: opaque but for its generated key. *)
Record User : Type := { PK : Z }.

Definition zeroUser : User := {| PK := 0 |}.

(** The tables the provider touches, the next key the user table hands out,
    and what the backend answers when it fails: the error it refuses the
    insertion of a user or of an identity with (if any), the message of the
    error it fails a query on the identity table with (if any), the error
    it fails a lookup of a user by primary key with (if any), and what it
    answers to a lookup of a user by a raw SQL condition. *)
Record DB : Type := {
  identities : list Basic;
  users : list User;
  nextPK : Z;
  createError : option error;
  firstOrCreateError : option error;
  scanError : option string;
  firstError : option error;
  rawFirst : string -> User * option error
}.

(** The store with other tables and the next key, its failures as they
    were. *)
Definition withTables (tx : DB) (ids : list Basic) (us : list User)
           (pk : Z) : DB :=
  {| identities := ids; users := us; nextPK := pk;
     createError := createError tx;
     firstOrCreateError := firstOrCreateError tx;
     scanError := scanError tx;
     firstError := firstError tx;
     rawFirst := rawFirst tx |}.

(** A backend that answers every raw condition with an SQL error. *)
Definition sqlError : string -> User * option error :=
  fun condition => (zeroUser, Some (ErrorString "SQL error")).

(** [Where(cond)] with a struct: only the non-zero fields constrain. *)
Definition field_matches (c r : string) : bool :=
  String.eqb c "" || String.eqb c r.

Definition matches (cond row : Basic) : bool :=
  field_matches (Provider cond) (Provider row) &&
  field_matches (UID cond) (UID row) &&
  field_matches (UserID cond) (UserID row).

(** [tx.Model(m).Where(cond).Scan(&out)]: [out] filled from the first
    matching row, or left as it was together with [ErrRecordNotFound] when
    no row matches, or with the backend's error when the query fails. *)
Definition Scan (tx : DB) (cond out : Basic) : Basic * option error :=
  match scanError tx with
  | Some msg => (out, Some (ErrorString msg))
  | None =>
      match find (matches cond) (identities tx) with
      | Some r => (r, None)
      | None => (out, Some ErrRecordNotFound)
      end
  end.

(** [db.RecordNotFound()]: the error is gorm's record-not-found. *)
Definition RecordNotFound (err : option error) : bool :=
  match err with
  | Some ErrRecordNotFound => true
  | _ => false
  end.

(** The number a key of decimal digits stands for; gorm takes such a key
    as a primary-key value. *)
Definition numericKey (key : string) : option Z :=
  match NilZero.uint_of_string key with
  | Some d => Some (Z.of_uint d)
  | None => None
  end.

(** [tx.First(out, key)] with a string key: a key of decimal digits is
    looked up as a primary-key value (so "0123" finds the key 123); any
    other key, a raw SQL condition or a number the backend has to trim, is
    answered by the backend. *)
Definition First (tx : DB) (key : string) : User * option error :=
  match numericKey key with
  | Some n =>
      match firstError tx with
      | Some e => (zeroUser, Some e)
      | None =>
          match find (fun u => Z.eqb (PK u) n) (users tx) with
          | Some u => (u, None)
          | None => (zeroUser, Some ErrRecordNotFound)
          end
      end
  | None => rawFirst tx key
  end.

(** [tx.Create(out)] of a new, empty user: the row gets the next key. *)
Definition Create (tx : DB) : DB * User * option error :=
  match createError tx with
  | Some e => (tx, zeroUser, Some e)
  | None =>
      let u := {| PK := nextPK tx |} in
      (withTables tx (identities tx) (users tx ++ [u]) (nextPK tx + 1),
       u, None)
  end.

(** [tx.Where(cond).FirstOrCreate(out)]: [out] filled from the first
    matching row if there is one; otherwise [out] is filled from the
    condition and inserted, and stays so filled when the insertion is
    refused.  When the query itself fails [out] is left as it was. *)
Definition FirstOrCreate (tx : DB) (cond : Basic) : DB * Basic * option error :=
  match scanError tx with
  | Some msg => (tx, zero, Some (ErrorString msg))
  | None =>
      match find (matches cond) (identities tx) with
      | Some r => (tx, r, None)
      | None =>
          match firstOrCreateError tx with
          | Some e => (tx, cond, Some e)
          | None =>
              (withTables tx (identities tx ++ [cond]) (users tx) (nextPK tx),
               cond, None)
          end
      end
  end.

(** The invariant of the identity table: at most one row per
    (provider, uid). *)
Definition KeyUnique (rows : list Basic) : Prop :=
  forall r1 r2, In r1 rows -> In r2 rows ->
    Provider r1 = Provider r2 -> UID r1 = UID r2 -> r1 = r2.

(** No row of the table carries the key (provider, uid). *)
Definition KeyAbsent (provider uid : string) (rows : list Basic) : Prop :=
  forall r, In r rows -> ~ (Provider r = provider /\ UID r = uid).

End gorm.

(** ** The host framework: request, session, outcome *)

Module auth.

(** The parts of [*http.Request] the provider reads: [req.URL.Scheme],
    [req.Host] and the [state] and [code] query parameters. *)
Record Request : Type := {
  Scheme : string;
  Host : string;
  State : jwt.TokenString;
  Code : string
}.

(** The parts of [*auth.Session] the provider reads: the signing method and
    secret of [session.Auth.Config], whether a user model is configured, and
    the path construction [session.AuthURL]. *)
Record Session : Type := {
  SigningMethod : jwt.SigningMethod;
  SignedString : string;
  UserModel : bool;
  AuthURL : string -> string
}.

(** What a handler hands back, by its data: the provider, uid and userId
    of an identity, or a user row.  [Identity] stands both for the
    [auth_identity.Basic] value the handler scanned (line 108) and for the
    host's identity model filled by the store (lines 119-123); the two Go
    types carry the same three attributes and are not told apart here. *)
Inductive Principal : Type :=
| Identity (b : auth_identity.Basic)
| User (u : gorm.User).

(** A call ends by returning the pair (principal, err) or by panicking. *)
Inductive Outcome : Type :=
| Return (principal : option Principal) (err : option error)
| Panic (msg : string).

(** Outbound calls to the issuer, in the order they were made. *)
Inductive Call : Type :=
| TokenExchange (cfg : oauth2.Config) (code : string)
| UsersGet (accessToken : string).

Record World : Type := {
  db : gorm.DB;
  calls : list Call
}.

Definition Handler : Type := Request -> Session -> World -> Outcome * World.

End auth.

(** ** The provider (package github) *)

Module github.

Import auth_identity gorm auth.

Definition AuthorizeURL : string := "https://github.com/login/oauth/authorize".
Definition TokenURL : string := "https://github.com/login/oauth/access_token".

(** The user record of go-github; [ID] is a pointer and may be nil. *)
Record Profile : Type := { ID : option Z }.

(** The issuer as the provider sees it through oauth2 and go-github:
    [oauthCfg.Exchange] and [client.Users.Get("")]. *)
Record Issuer : Type := {
  Exchange : oauth2.Config -> string -> error + string;
  UsersGet_ : string -> error + Profile
}.

Record Config : Type := {
  ClientID : string;
  ClientSecret : string;
  AuthorizeURL_ : string;
  TokenURL_ : string;
  RedirectURL : string;
  Scopes : list string;
  AuthorizeHandler : option Handler
}.

Definition emptyConfig : Config :=
  {| ClientID := ""; ClientSecret := ""; AuthorizeURL_ := ""; TokenURL_ := "";
     RedirectURL := ""; Scopes := []; AuthorizeHandler := None |}.

Record GithubProvider : Type := { Config_ : Config }.

(** [GetName] *)
Definition GetName (provider : GithubProvider) : string := "github".

(** [OAuthConfig] *)
Definition OAuthConfig (provider : GithubProvider) (req : Request)
           (session : Session) : oauth2.Config :=
  let config := Config_ provider in
  let scheme := Scheme req in
  let scheme := if String.eqb scheme "" then "http://" else scheme in
  {| oauth2.ClientID := ClientID config;
     oauth2.ClientSecret := ClientSecret config;
     oauth2.Endpoint_ := {| oauth2.AuthURL := AuthorizeURL_ config;
                            oauth2.TokenURL := TokenURL_ config |};
     oauth2.RedirectURL := scheme ++ Host req ++ AuthURL session "github/callback";
     oauth2.Scopes := Scopes config |}.

Section Provider.

Variable hmac : jwt.SigningMethod -> string -> jwt.SigningInput -> string.
Variable now : Z.
Variable issuer : Issuer.

(** The key function of the handler (lines 71-76). *)
Definition keyFunc (session : Session) : jwt.Keyfunc :=
  fun token =>
    match jwt.Method token with
    | Some m =>
        if negb (jwt.SigningMethod_eqb m (SigningMethod session))
        then ("", Some (ErrorString "unexpected signing method"))
        else (SignedString session, None)
    | None => ("", Some (ErrorString "unexpected signing method"))
    end.

(** The guard of line 78: the type assertion to [*jwt.StandardClaims]
    holds, and the token is invalid or its subject is not "state". *)
Definition rejected (token : jwt.Token) : bool :=
  match jwt.TokenClaims token with
  | Some (jwt.ClaimsStandardPtr claims) =>
      negb (jwt.Valid token) || negb (String.eqb (jwt.Subject claims) "state")
  | _ => false
  end.

(** Lines 96-123 of the default handler: find or create the local
    identity (and user) for the issuer's [id].  Line 99 takes the first
    branch unless the lookup answered record-not-found, so also when the
    lookup failed and [authInfo] is as it was built. *)
Definition linkIdentity (provider : GithubProvider) (session : Session)
           (id : Z) (w : World) : Outcome * World :=
  let tx := db w in
  let authInfo := {| Provider := GetName provider; UID := Sprint id;
                     UserID := "" |} in
  let '(authInfo, scanned) := Scan tx authInfo authInfo in
  if negb (RecordNotFound scanned) then
    if UserModel session then
      if String.eqb (UserID authInfo) "" then
        (Return None (Some ErrInvalidAccount), w)
      else
        let '(currentUser, err) := First tx (UserID authInfo) in
        (Return (Some (User currentUser)) err, w)
    else (Return (Some (Identity authInfo)) None, w)
  else
    if UserModel session then
      match Create tx with
      | (tx, currentUser, None) =>
          let authInfo := {| Provider := Provider authInfo;
                             UID := UID authInfo;
                             UserID := Sprint (PK currentUser) |} in
          let '(tx, _, err) := FirstOrCreate tx authInfo in
          (Return (Some (User currentUser)) err,
           {| db := tx; calls := calls w |})
      | (tx, _, Some err) =>
          (Return None (Some err), {| db := tx; calls := calls w |})
      end
    else
      let '(tx, authIdentity, err) := FirstOrCreate tx authInfo in
      (Return (Some (Identity authIdentity)) err,
       {| db := tx; calls := calls w |}).

(** The default [AuthorizeHandler] that [New] installs (lines 62-127). *)
Definition defaultAuthorizeHandler (provider : GithubProvider) : Handler :=
  fun req session w =>
    let state := State req in
    let '(token, err) := jwt.Parse hmac now state (keyFunc session) in
    match token with
    | None => (Panic "nil pointer dereference", w)
    | Some token =>
        if rejected token then (Return None (Some ErrUnauthorized), w)
        else
          match err with
          | None =>
              let oauthCfg := OAuthConfig provider req session in
              let w := {| db := db w;
                          calls := calls w ++
                                   [TokenExchange oauthCfg (Code req)] |} in
              match Exchange issuer oauthCfg (Code req) with
              | inl err => (Return None (Some err), w)
              | inr tkn =>
                  let w := {| db := db w;
                              calls := calls w ++ [UsersGet tkn] |} in
                  match UsersGet_ issuer tkn with
                  | inl err => (Return None (Some err), w)
                  | inr user =>
                      match ID user with
                      | None => (Panic "nil pointer dereference", w)
                      | Some id => linkIdentity provider session id w
                      end
                  end
              end
          | Some err => (Return None (Some err), w)
          end
    end.

(** What [New] returns: the provider, or the value it panics with. *)
Inductive Constructed : Type :=
| Built (provider : GithubProvider)
| Panicked (e : error).

(** [New].  The closure it installs holds the provider; of the provider's
    Config it reads what [OAuthConfig] reads, and those fields have their
    final values when the closure is built. *)
Definition New (config : option Config) : Constructed :=
  let config := match config with Some c => c | None => emptyConfig end in
  if String.eqb (ClientID config) "" then
    Panicked (ErrorString "Github's ClientID can't be blank")
  else if String.eqb (ClientSecret config) "" then
    Panicked (ErrorString "Github's ClientSecret can't be blank")
  else
    let config :=
      {| ClientID := ClientID config;
         ClientSecret := ClientSecret config;
         AuthorizeURL_ := if String.eqb (AuthorizeURL_ config) ""
                          then AuthorizeURL else AuthorizeURL_ config;
         TokenURL_ := if String.eqb (TokenURL_ config) ""
                      then TokenURL else TokenURL_ config;
         RedirectURL := RedirectURL config;
         Scopes := Scopes config;
         AuthorizeHandler := AuthorizeHandler config |} in
    match AuthorizeHandler config with
    | Some _ => Built {| Config_ := config |}
    | None =>
        Built {| Config_ :=
                   {| ClientID := ClientID config;
                      ClientSecret := ClientSecret config;
                      AuthorizeURL_ := AuthorizeURL_ config;
                      TokenURL_ := TokenURL_ config;
                      RedirectURL := RedirectURL config;
                      Scopes := Scopes config;
                      AuthorizeHandler :=
                        Some (defaultAuthorizeHandler
                                {| Config_ := config |}) |} |}
    end.

(** What [Login] writes: the status and the location of its redirect. *)
Record Redirect : Type := {
  Status : Z;
  Location : oauth2.AuthCodeURL_
}.

(** [Login] *)
Definition Login (provider : GithubProvider) (req : Request)
           (session : Session) : Redirect :=
  let token := jwt.NewWithClaims (SigningMethod session)
                 (jwt.ClaimsStandard
                    {| jwt.Subject := "state"; jwt.ExpiresAt := 0;
                       jwt.IssuedAt := 0; jwt.NotBefore := 0 |}) in
  let '(signedToken, _) := jwt.SignedString hmac token (SignedString session) in
  let url := oauth2.AuthCodeURL (OAuthConfig provider req session) signedToken in
  {| Status := 302; Location := url |}.

(** [Register] *)
Definition Register (provider : GithubProvider) (req : Request)
           (session : Session) : Redirect :=
  Login provider req session.

End Provider.

End github.

(** ** A concrete host, issuer and store *)

Import auth_identity gorm auth github.

Module Scenario.

(** A host session: HS256, a secret, and the framework's path prefix. *)
Definition session (userModel : bool) : Session :=
  {| SigningMethod := jwt.HS256;
     SignedString := "secret";
     UserModel := userModel;
     AuthURL := fun p => "/auth/" ++ p |}.

Definition config : Config :=
  {| ClientID := "x"; ClientSecret := "y";
     AuthorizeURL_ := AuthorizeURL; TokenURL_ := TokenURL;
     RedirectURL := "https://app.example.com/oauth/return";
     Scopes := []; AuthorizeHandler := None |}.

Definition provider : GithubProvider := {| Config_ := config |}.

(** A stand-in for the MAC: it depends on the method and on the key. *)
Definition mac (m : jwt.SigningMethod) (key : string)
           (input : jwt.SigningInput) : string :=
  jwt.Alg m ++ ":" ++ key.

(** An issuer that exchanges any code for the token "t" and knows one
    account per access token. *)
Definition issuer (id : Z) : Issuer :=
  {| Exchange := fun _ _ => inr "t";
     UsersGet_ := fun _ => inr {| ID := Some id |} |}.

Definition emptyDB : DB :=
  {| identities := []; users := []; nextPK := 123;
     createError := None; firstOrCreateError := None;
     scanError := None; firstError := None; rawFirst := sqlError |}.

Definition request (scheme : string) (st : jwt.TokenString) : Request :=
  {| Scheme := scheme; Host := "app.example.com"; State := st;
     Code := "c0de" |}.

(** The state [Login] mints for that session. *)
Definition minted (s : Session) : jwt.TokenString :=
  oauth2.state
    (Location (Login mac provider (request "" jwt.BadSegments) s)).

(** A session of the same method under another secret. *)
Definition forger : Session :=
  {| SigningMethod := jwt.HS256;
     SignedString := "forged";
     UserModel := false;
     AuthURL := fun p => "/auth/" ++ p |}.

(** A store with an identity for ("github", "9") bound to no user. *)
Definition orphanDB : DB :=
  {| identities := [{| Provider := "github"; UID := "9"; UserID := "" |}];
     users := []; nextPK := 123;
     createError := None; firstOrCreateError := None;
     scanError := None; firstError := None; rawFirst := sqlError |}.

(** A store that refuses to insert users. *)
Definition refusingDB : DB :=
  {| identities := []; users := []; nextPK := 123;
     createError := Some (ErrorString "insert failed");
     firstOrCreateError := None;
     scanError := None; firstError := None; rawFirst := sqlError |}.

(** A store that takes a new user and then refuses the identity. *)
Definition halfDB : DB :=
  {| identities := []; users := []; nextPK := 123;
     createError := None;
     firstOrCreateError := Some (ErrorString "insert failed");
     scanError := None; firstError := None; rawFirst := sqlError |}.

(** A store that already knows ("github", "42"). *)
Definition knownDB : DB :=
  {| identities := [{| Provider := "github"; UID := "42"; UserID := "" |}];
     users := []; nextPK := 123;
     createError := None; firstOrCreateError := None;
     scanError := None; firstError := None; rawFirst := sqlError |}.

(** A Config with credentials and nothing else. *)
Definition bareConfig : Config :=
  {| ClientID := "x"; ClientSecret := "y";
     AuthorizeURL_ := ""; TokenURL_ := "";
     RedirectURL := ""; Scopes := ["user:email"]; AuthorizeHandler := None |}.

(** A session whose signing method needs a key pair. *)
Definition rsaSession : Session :=
  {| SigningMethod := jwt.RS256;
     SignedString := "secret";
     UserModel := false;
     AuthURL := fun p => "/auth/" ++ p |}.

(** Issuers that fail at the token endpoint, at the profile endpoint, or
    answer with a profile that has no id. *)
Definition issuerDown : Issuer :=
  {| Exchange := fun _ _ => inl (ErrorString "oauth2: cannot fetch token");
     UsersGet_ := fun _ => inr {| ID := Some 7%Z |} |}.

Definition issuerNoProfile : Issuer :=
  {| Exchange := fun _ _ => inr "t";
     UsersGet_ := fun _ => inl (ErrorString "GET /user: 500") |}.

Definition issuerNoId : Issuer :=
  {| Exchange := fun _ _ => inr "t";
     UsersGet_ := fun _ => inr {| ID := None |} |}.

(** A store where ("github", "7") is bound to the user 123. *)
Definition boundDB : DB :=
  {| identities := [{| Provider := "github"; UID := "7"; UserID := "123" |}];
     users := [{| PK := 123 |}]; nextPK := 124;
     createError := None; firstOrCreateError := None;
     scanError := None; firstError := None; rawFirst := sqlError |}.

(** The same identity, with the user row gone. *)
Definition danglingDB : DB :=
  {| identities := [{| Provider := "github"; UID := "7"; UserID := "123" |}];
     users := []; nextPK := 124;
     createError := None; firstOrCreateError := None;
     scanError := None; firstError := None; rawFirst := sqlError |}.

(** A store whose backend is down: the lookup of an identity fails, and
    so would the insertion of a user. *)
Definition unreachableDB : DB :=
  {| identities := []; users := []; nextPK := 123;
     createError := Some (ErrorString "insert failed");
     firstOrCreateError := None;
     scanError := Some "connection refused"; firstError := None;
     rawFirst := sqlError |}.

(** The callback that carries the state minted for a session. *)
Definition callback (s : Session) : Request :=
  request "" (minted s).

Definition world (tx : DB) : World := {| db := tx; calls := [] |}.

(** A later callback of the same session, with a code of its own. *)
Definition laterCallback (s : Session) : Request :=
  {| Scheme := ""; Host := "app.example.com"; State := minted s;
     Code := "c0de-2" |}.

(** A handler of the host's own, and a Config that carries it. *)
Definition denyAll : Handler :=
  fun _ _ w => (Return None (Some ErrUnauthorized), w).

Definition customConfig : Config :=
  {| ClientID := "x"; ClientSecret := "y";
     AuthorizeURL_ := "https://ghe.example.com/login/oauth/authorize";
     TokenURL_ := "https://ghe.example.com/login/oauth/access_token";
     RedirectURL := ""; Scopes := []; AuthorizeHandler := Some denyAll |}.

(** The provider [New] builds from a Config (the given provider when
    [New] panics). *)
Definition built (c : Config) : GithubProvider :=
  match New mac 0 (issuer 42) (Some c) with
  | Built p => p
  | Panicked _ => provider
  end.

End Scenario.

(** ** Properties *)

(** *** Construction *)

(** C9: a Config whose ClientID or ClientSecret is empty, a nil Config
    included, does not yield a provider: [New] panics with the error that
    names the blank field. *)
Theorem New_blank_credentials_panic :
  forall hmac now issuer (config : option Config),
    (config = None \/
     exists c, config = Some c /\ (ClientID c = "" \/ ClientSecret c = "")) ->
    (New hmac now issuer config =
       Panicked (ErrorString "Github's ClientID can't be blank") \/
     New hmac now issuer config =
       Panicked (ErrorString "Github's ClientSecret can't be blank")) /\
    (forall provider, New hmac now issuer config <> Built provider).
Proof.
  intros hmac now issuer config H.
  assert (Hp : New hmac now issuer config =
                 Panicked (ErrorString "Github's ClientID can't be blank") \/
               New hmac now issuer config =
                 Panicked (ErrorString "Github's ClientSecret can't be blank")).
  { destruct H as [-> | [c [-> [Hid | Hsecret]]]].
    - left. reflexivity.
    - left. unfold New. rewrite Hid. reflexivity.
    - unfold New. destruct (String.eqb (ClientID c) "").
      + left. reflexivity.
      + right. rewrite Hsecret. reflexivity. }
  split; [exact Hp |].
  intros provider Hb. destruct Hp as [Hp | Hp]; rewrite Hp in Hb; discriminate.
Qed.

(** With both credentials present [New] does build a provider, so the
    panic above is the only way construction fails. *)
Lemma New_builds :
  forall hmac now issuer c,
    ClientID c <> "" -> ClientSecret c <> "" ->
    exists provider, New hmac now issuer (Some c) = Built provider /\
                     ClientID (Config_ provider) = ClientID c /\
                     ClientSecret (Config_ provider) = ClientSecret c.
Proof.
  intros hmac now issuer c Hid Hsecret. unfold New.
  apply String.eqb_neq in Hid. apply String.eqb_neq in Hsecret.
  rewrite Hid, Hsecret.
  destruct (AuthorizeHandler c); eexists; (split; [reflexivity |]); split; reflexivity.
Qed.

(** The handler [New] installs when none is configured is the default one,
    closed over the provider with its endpoint defaults filled in. *)
Lemma New_installs_default_handler :
  forall hmac now issuer c provider,
    AuthorizeHandler c = None ->
    New hmac now issuer (Some c) = Built provider ->
    exists provider0,
      AuthorizeHandler (Config_ provider) =
        Some (defaultAuthorizeHandler hmac now issuer provider0) /\
      forall req session,
        OAuthConfig provider0 req session = OAuthConfig provider req session.
Proof.
  intros hmac now issuer c provider Hnone. unfold New.
  destruct (String.eqb (ClientID c) ""); [discriminate |].
  destruct (String.eqb (ClientSecret c) ""); [discriminate |].
  cbn [AuthorizeHandler]. rewrite Hnone. intros Hb. injection Hb as <-.
  eexists. split; [reflexivity |]. intros req session. reflexivity.
Qed.

(** *** The redirect URL *)

(** C10: when the request's scheme is not empty the redirect URL is the
    scheme followed at once by the host and the callback path; nothing is
    put between scheme and host. *)
Theorem OAuthConfig_redirect_nonempty_scheme :
  forall provider req session,
    Scheme req <> "" ->
    oauth2.RedirectURL (OAuthConfig provider req session) =
      Scheme req ++ Host req ++ AuthURL session "github/callback".
Proof.
  intros provider req session Hs. unfold OAuthConfig. cbn [oauth2.RedirectURL].
  apply String.eqb_neq in Hs. rewrite Hs. reflexivity.
Qed.

(** With an empty scheme the redirect URL starts with the default, which
    carries the separator. *)
Lemma OAuthConfig_redirect_empty_scheme :
  forall provider req session,
    Scheme req = "" ->
    oauth2.RedirectURL (OAuthConfig provider req session) =
      "http://" ++ Host req ++ AuthURL session "github/callback".
Proof.
  intros provider req session Hs. unfold OAuthConfig. cbn [oauth2.RedirectURL].
  rewrite Hs. reflexivity.
Qed.

(** The static [RedirectURL] of the Config is never read. *)
Lemma OAuthConfig_ignores_RedirectURL :
  forall c url req session,
    OAuthConfig {| Config_ := c |} req session =
    OAuthConfig
      {| Config_ := {| ClientID := ClientID c;
                       ClientSecret := ClientSecret c;
                       AuthorizeURL_ := AuthorizeURL_ c;
                       TokenURL_ := TokenURL_ c;
                       RedirectURL := url;
                       Scopes := Scopes c;
                       AuthorizeHandler := AuthorizeHandler c |} |}
      req session.
Proof. reflexivity. Qed.

(** C1, evaluated on a request with scheme "https" and a Config with a
    static redirect URL: the redirect URL of the client configuration is
    neither the static URL nor scheme://host/path. *)
Theorem OAuthConfig_redirect_https_static :
  oauth2.RedirectURL
    (OAuthConfig Scenario.provider
       (Scenario.request "https" jwt.BadSegments) (Scenario.session false))
  = "httpsapp.example.com/auth/github/callback"
  /\ RedirectURL (Config_ Scenario.provider)
     = "https://app.example.com/oauth/return"
  /\ oauth2.RedirectURL
       (OAuthConfig Scenario.provider
          (Scenario.request "https" jwt.BadSegments) (Scenario.session false))
     <> RedirectURL (Config_ Scenario.provider)
  /\ oauth2.RedirectURL
       (OAuthConfig Scenario.provider
          (Scenario.request "https" jwt.BadSegments) (Scenario.session false))
     <> "https://app.example.com/auth/github/callback".
Proof.
  repeat split; try reflexivity; vm_compute; discriminate.
Qed.

(** *** The state token *)

Lemma SigningMethod_eqb_eq :
  forall a b, jwt.SigningMethod_eqb a b = true <-> a = b.
Proof.
  intros a b; split.
  - destruct a, b; simpl; intros H; try reflexivity; discriminate.
  - intros ->. destruct b; reflexivity.
Qed.

Lemma SigningMethod_eqb_neq :
  forall a b, a <> b -> jwt.SigningMethod_eqb a b = false.
Proof.
  intros a b Hne. destruct (jwt.SigningMethod_eqb a b) eqn:E; [| reflexivity].
  apply SigningMethod_eqb_eq in E. contradiction.
Qed.

Lemma GetSigningMethod_Alg :
  forall m, jwt.GetSigningMethod (jwt.Alg m) = Some m.
Proof. destruct m; reflexivity. Qed.

Lemma GetSigningMethod_sound :
  forall name m, jwt.GetSigningMethod name = Some m -> jwt.Alg m = name.
Proof.
  intros name m H. unfold jwt.GetSigningMethod in H.
  apply find_some in H. destruct H as [_ H]. apply String.eqb_eq in H. exact H.
Qed.

Section StateToken.

Variable hmac : jwt.SigningMethod -> string -> jwt.SigningInput -> string.
Variable now : Z.
Variable issuer : Issuer.

(** The parser past the decoding always returns a token, and its claims
    are a [MapClaims]. *)
Lemma parseSegments_token :
  forall tokenString alg claims segment verify keyFunc,
    exists token,
      fst (jwt.parseSegments now tokenString alg claims segment verify keyFunc)
      = Some token
      /\ jwt.TokenClaims token = Some (jwt.ClaimsMap claims).
Proof.
  intros tokenString alg claims segment verify kf. unfold jwt.parseSegments.
  destruct alg as [name |]; [| eexists; split; reflexivity].
  destruct (jwt.GetSigningMethod name) as [m |];
    [| eexists; split; reflexivity].
  match goal with
  | |- context [kf ?t] => destruct (kf t) as [key [[| | | msg | i t' f] |]]
  end; try (eexists; split; reflexivity).
  cbv zeta. destruct (Z.eqb _ 0); eexists; split; reflexivity.
Qed.

(** It returns no error only when the header names a registered method,
    the key function hands out a key for it, and the signature verifies
    under that key. *)
Lemma parseSegments_accepted :
  forall tokenString alg claims segment verify keyFunc,
    snd (jwt.parseSegments now tokenString alg claims segment verify keyFunc)
    = None ->
    exists name m key,
      alg = Some name /\ jwt.GetSigningMethod name = Some m /\
      keyFunc {| jwt.Raw := tokenString; jwt.Method := Some m;
                 jwt.TokenClaims := Some (jwt.ClaimsMap claims);
                 jwt.Signature := ""; jwt.Valid := false |} = (key, None) /\
      verify m (name, claims) key = None.
Proof.
  intros tokenString alg claims segment verify kf. unfold jwt.parseSegments.
  destruct alg as [name |]; [| discriminate].
  destruct (jwt.GetSigningMethod name) as [m |] eqn:Hm; [| discriminate].
  match goal with
  | |- context [kf ?t] =>
      destruct (kf t) as [key [[| | | msg | i t' f] |]] eqn:Hk
  end; try discriminate.
  cbv zeta.
  destruct (verify m (name, claims) key) as [e |] eqn:Hv.
  - cbn [jwt.vErrors].
    replace (Z.lor (jwt.vErrors (jwt.MapClaimsValid now claims))
               jwt.ValidationErrorSignatureInvalid =? 0)%Z with false.
    + discriminate.
    + symmetry. apply Z.eqb_neq. intros H0. apply Z.lor_eq_0_iff in H0.
      destruct H0 as [_ H0]. discriminate.
  - intros _. exists name, m, key.
    repeat split; first [reflexivity | assumption].
Qed.

(** The token [Parse] returns never has [*StandardClaims] behind its
    claims, so the guard of line 78 never fires on it. *)
Lemma Parse_never_rejected :
  forall tokenString keyFunc token,
    fst (jwt.Parse hmac now tokenString keyFunc) = Some token ->
    rejected token = false.
Proof.
  intros tokenString kf token. unfold jwt.Parse.
  destruct tokenString as [| cause | alg claims signature
                           | alg claims segment cause].
  - discriminate.
  - cbn. intros H; injection H as <-. reflexivity.
  - destruct (parseSegments_token
                (jwt.Compact alg claims signature) alg claims signature
                (fun m input key => jwt.Verify hmac m input signature key) kf)
      as [t [Ht Hc]].
    rewrite Ht. intros H; injection H as <-. unfold rejected. rewrite Hc.
    reflexivity.
  - destruct (parseSegments_token
                (jwt.CompactUndecodable alg claims segment cause)
                alg claims segment
                (fun m _ _ => jwt.VerifyUndecodable m cause) kf)
      as [t [Ht Hc]].
    rewrite Ht. intros H; injection H as <-. unfold rejected. rewrite Hc.
    reflexivity.
Qed.

(** A parse without error returns a token. *)
Lemma Parse_ok_token :
  forall tokenString keyFunc,
    snd (jwt.Parse hmac now tokenString keyFunc) = None ->
    exists token, fst (jwt.Parse hmac now tokenString keyFunc) = Some token.
Proof.
  intros tokenString kf. unfold jwt.Parse.
  destruct tokenString as [| cause | alg claims signature
                           | alg claims segment cause];
    try discriminate; intros _.
  - destruct (parseSegments_token
                (jwt.Compact alg claims signature) alg claims signature
                (fun m input key => jwt.Verify hmac m input signature key) kf)
      as [t [Ht _]].
    exists t. exact Ht.
  - destruct (parseSegments_token
                (jwt.CompactUndecodable alg claims segment cause)
                alg claims segment
                (fun m _ _ => jwt.VerifyUndecodable m cause) kf)
      as [t [Ht _]].
    exists t. exact Ht.
Qed.

(** The linking step makes no call to the issuer. *)
Lemma linkIdentity_calls :
  forall provider session id w,
    calls (snd (linkIdentity provider session id w)) = calls w.
Proof.
  intros provider session id w. unfold linkIdentity.
  destruct (Scan _ _ _) as [authInfo scanned].
  destruct (negb (RecordNotFound scanned)).
  - destruct (UserModel session); [| reflexivity].
    destruct (String.eqb _ ""); [reflexivity |].
    destruct (First _ _); reflexivity.
  - destruct (UserModel session).
    + destruct (Create _) as [[tx u] [e |]]; [reflexivity |].
      destruct (FirstOrCreate _ _) as [[tx' b] e]. reflexivity.
    + destruct (FirstOrCreate _ _) as [[tx' b] e]. reflexivity.
Qed.

(** On a token whose claims are a [*StandardClaims] the guard of line 78
    does fire: an invalid token or a subject other than "state" is
    rejected. *)
Lemma rejected_standard_claims :
  forall token c,
    jwt.TokenClaims token = Some (jwt.ClaimsStandardPtr c) ->
    rejected token = negb (jwt.Valid token && String.eqb (jwt.Subject c) "state").
Proof.
  intros token c H. unfold rejected. rewrite H.
  destruct (jwt.Valid token), (String.eqb (jwt.Subject c) "state"); reflexivity.
Qed.

(** Once the state token parses without error the handler goes on to
    the code exchange, whatever the claims of the token say. *)
Lemma accepted_state_exchanges :
  forall provider req session w,
    snd (jwt.Parse hmac now (State req) (keyFunc session)) = None ->
    exists rest,
      calls (snd (defaultAuthorizeHandler hmac now issuer provider req session w))
      = (calls w ++
         TokenExchange (OAuthConfig provider req session) (Code req) :: rest)%list.
Proof.
  intros provider req session w Herr.
  destruct (Parse_ok_token _ _ Herr) as [token Htok].
  pose proof (Parse_never_rejected _ _ _ Htok) as Hrej.
  unfold defaultAuthorizeHandler.
  destruct (jwt.Parse hmac now (State req) (keyFunc session)) as [t e].
  cbn in Herr, Htok. subst t e. rewrite Hrej.
  destruct (Exchange issuer _ _) as [e | tkn]; cbn.
  - exists []. reflexivity.
  - destruct (UsersGet_ issuer tkn) as [e | user]; cbn.
    + exists [UsersGet tkn]. rewrite <- app_assoc. reflexivity.
    + destruct (ID user) as [id |]; cbn.
      * rewrite linkIdentity_calls. cbn.
        exists [UsersGet tkn]. rewrite <- app_assoc. reflexivity.
      * exists [UsersGet tkn]. rewrite <- app_assoc. reflexivity.
Qed.

(** A state token that does not parse without error ends the handler
    before any call to the issuer, with the world as it was. *)
Lemma refused_state_returns :
  forall provider req session w token e,
    jwt.Parse hmac now (State req) (keyFunc session) = (Some token, Some e) ->
    defaultAuthorizeHandler hmac now issuer provider req session w
    = (Return None (Some e), w).
Proof.
  intros provider req session w token e Hp.
  assert (Hrej : rejected token = false).
  { apply (Parse_never_rejected (State req) (keyFunc session)).
    rewrite Hp. reflexivity. }
  unfold defaultAuthorizeHandler. rewrite Hp, Hrej. reflexivity.
Qed.

(** What [Login] puts in the state parameter under an HMAC method. *)
Lemma Login_state :
  forall provider req session,
    jwt.isHMAC (SigningMethod session) = true ->
    oauth2.state (Location (Login hmac provider req session)) =
      jwt.Compact (Some (jwt.Alg (SigningMethod session)))
        [("sub", jwt.VString "state")]
        (hmac (SigningMethod session) (SignedString session)
           (jwt.Alg (SigningMethod session), [("sub", jwt.VString "state")])).
Proof.
  intros provider req session Hm. unfold Login, jwt.SignedString, jwt.Sign.
  cbn. rewrite Hm. reflexivity.
Qed.

(** C4: under an HMAC signing method m and any secret s, the state token
    that [Login] mints with (m, s) parses without error and as a valid
    token under the same (m, s), and the handler that receives it goes on
    to the code exchange. *)
Theorem state_round_trip :
  forall provider req0 req session w,
    jwt.isHMAC (SigningMethod session) = true ->
    State req = oauth2.state (Location (Login hmac provider req0 session)) ->
    (exists token,
        jwt.Parse hmac now (State req) (keyFunc session) = (Some token, None)
        /\ jwt.Valid token = true) /\
    (exists rest,
        calls (snd (defaultAuthorizeHandler hmac now issuer provider req session w))
        = (calls w ++
           TokenExchange (OAuthConfig provider req session) (Code req) :: rest)%list).
Proof.
  intros provider req0 req session w Hm Hst.
  rewrite (Login_state _ _ _ Hm) in Hst.
  assert (Hp : exists token,
             jwt.Parse hmac now (State req) (keyFunc session) = (Some token, None)
             /\ jwt.Valid token = true).
  { rewrite Hst. unfold jwt.Parse, jwt.parseSegments.
    rewrite GetSigningMethod_Alg.
    unfold keyFunc. cbn [jwt.Method].
    rewrite (proj2 (SigningMethod_eqb_eq _ _) eq_refl). cbn [negb].
    unfold jwt.Verify. rewrite Hm, String.eqb_refl. cbn.
    eexists. split; reflexivity. }
  split; [exact Hp |].
  apply accepted_state_exchanges.
  destruct Hp as [token [Hp _]]. rewrite Hp. reflexivity.
Qed.

(** The key function hands out the configured secret, and only for a
    token of the configured method. *)
Lemma keyFunc_accepts :
  forall session token key,
    keyFunc session token = (key, None) ->
    jwt.Method token = Some (SigningMethod session) /\
    key = SignedString session.
Proof.
  intros session token key. unfold keyFunc.
  destruct (jwt.Method token) as [m |]; [| discriminate].
  destruct (jwt.SigningMethod_eqb m (SigningMethod session)) eqn:E; cbn;
    [| discriminate].
  apply SigningMethod_eqb_eq in E. subst m.
  intros H. injection H as <-. split; reflexivity.
Qed.

Lemma keyFunc_refuses :
  forall session token m,
    jwt.Method token = Some m -> m <> SigningMethod session ->
    keyFunc session token
    = ("", Some (ErrorString "unexpected signing method")).
Proof.
  intros session token m Hm Hne. unfold keyFunc. rewrite Hm.
  rewrite (SigningMethod_eqb_neq _ _ Hne). reflexivity.
Qed.

(** A state token is accepted only if its header names the configured
    signing method and its signature verifies under the configured
    secret. *)
Lemma accepted_state_is_signed :
  forall req session,
    snd (jwt.Parse hmac now (State req) (keyFunc session)) = None ->
    exists claims signature,
      State req =
        jwt.Compact (Some (jwt.Alg (SigningMethod session))) claims signature
      /\ jwt.Verify hmac (SigningMethod session)
           (jwt.Alg (SigningMethod session), claims) signature
           (SignedString session) = None.
Proof.
  intros req session. unfold jwt.Parse.
  destruct (State req) as [| cause | alg claims signature
                           | alg claims segment cause];
    try discriminate; intros H;
    apply parseSegments_accepted in H;
    destruct H as (name & m & key & -> & Hm & Hk & Hv);
    apply keyFunc_accepts in Hk; cbn [jwt.Method] in Hk;
    destruct Hk as [Hk ->]; injection Hk as ->;
    apply GetSigningMethod_sound in Hm; subst name.
  - exists claims, signature. split; [reflexivity | exact Hv].
  - exfalso. unfold jwt.VerifyUndecodable in Hv.
    destruct (SigningMethod session); discriminate.
Qed.

(** What the parser answers when the header names another algorithm than
    the configured one. *)
Lemma parseSegments_mismatch :
  forall tokenString name claims segment verify session,
    name <> jwt.Alg (SigningMethod session) ->
    exists token e,
      jwt.parseSegments now tokenString (Some name) claims segment verify
        (keyFunc session) = (Some token, Some e) /\
      (forall m', jwt.GetSigningMethod name = Some m' ->
                  e = ValidationError
                        (Some (ErrorString "unexpected signing method")) ""
                        jwt.ValidationErrorUnverifiable) /\
      (jwt.GetSigningMethod name = None ->
       e = ValidationError None "signing method (alg) is unavailable."
             jwt.ValidationErrorUnverifiable).
Proof.
  intros tokenString name claims segment verify session Hne.
  unfold jwt.parseSegments.
  destruct (jwt.GetSigningMethod name) as [m |] eqn:Hm.
  - assert (Hm' : m <> SigningMethod session).
    { intros ->. apply GetSigningMethod_sound in Hm. congruence. }
    match goal with
    | |- context [keyFunc session ?t] =>
        rewrite (keyFunc_refuses session t m eq_refl Hm')
    end.
    eexists _, _. split; [reflexivity |].
    split; [intros m' _; reflexivity | discriminate].
  - eexists _, _. split; [reflexivity |].
    split; [intros m' Hd; discriminate | intros _; reflexivity].
Qed.

(** C8, as amended: a state token whose header declares an algorithm
    other than the configured one makes the handler return an error that
    is not [ErrUnauthorized], with nothing else done: the key function's
    "unexpected signing method" (wrapped by the parser) when the declared
    algorithm is a registered one, and the parser's "signing method (alg)
    is unavailable." when it is not. *)
Theorem alg_mismatch_refused :
  forall provider req session w name,
    jwt.headerAlg (State req) = Some name ->
    name <> jwt.Alg (SigningMethod session) ->
    exists e,
      defaultAuthorizeHandler hmac now issuer provider req session w
      = (Return None (Some e), w)
      /\ e <> ErrUnauthorized
      /\ (forall m', jwt.GetSigningMethod name = Some m' ->
                     e = ValidationError
                           (Some (ErrorString "unexpected signing method")) ""
                           jwt.ValidationErrorUnverifiable
                     /\ Error e = "unexpected signing method")
      /\ (jwt.GetSigningMethod name = None ->
          e = ValidationError None "signing method (alg) is unavailable."
                jwt.ValidationErrorUnverifiable
          /\ Error e = "signing method (alg) is unavailable.").
Proof.
  intros provider req session w name Halg Hne.
  assert (Hp : exists token e,
             jwt.Parse hmac now (State req) (keyFunc session)
             = (Some token, Some e) /\
             (forall m', jwt.GetSigningMethod name = Some m' ->
                         e = ValidationError
                               (Some (ErrorString "unexpected signing method"))
                               "" jwt.ValidationErrorUnverifiable) /\
             (jwt.GetSigningMethod name = None ->
              e = ValidationError None "signing method (alg) is unavailable."
                    jwt.ValidationErrorUnverifiable)).
  { unfold jwt.Parse.
    destruct (State req) as [| cause | alg claims signature
                             | alg claims segment cause];
      cbn in Halg; try discriminate; subst alg;
      apply parseSegments_mismatch; exact Hne. }
  destruct Hp as (token & e & Hp & Hreg & Hunreg).
  exists e. split; [eapply refused_state_returns; exact Hp |].
  split.
  - destruct (jwt.GetSigningMethod name) as [m |] eqn:Hm.
    + rewrite (Hreg m eq_refl). discriminate.
    + rewrite (Hunreg eq_refl). discriminate.
  - split.
    + intros m' Hm. rewrite (Hreg m' Hm). split; reflexivity.
    + intros Hm. rewrite (Hunreg Hm). split; reflexivity.
Qed.

(** C3, on a state token minted under another secret: the handler stops
    before the code exchange and leaves the world as it was, but the
    error it returns is the parser's "signature is invalid", not
    [ErrUnauthorized]. *)
Theorem forged_state_signature_invalid :
  forall provider req0 req session forger w,
    jwt.isHMAC (SigningMethod session) = true ->
    SigningMethod forger = SigningMethod session ->
    State req = oauth2.state (Location (Login hmac provider req0 forger)) ->
    hmac (SigningMethod session) (SignedString forger)
      (jwt.Alg (SigningMethod session), [("sub", jwt.VString "state")])
    <> hmac (SigningMethod session) (SignedString session)
         (jwt.Alg (SigningMethod session), [("sub", jwt.VString "state")]) ->
    defaultAuthorizeHandler hmac now issuer provider req session w
    = (Return None
         (Some (ValidationError (Some jwt.ErrSignatureInvalid) ""
                  jwt.ValidationErrorSignatureInvalid)), w)
    /\ ValidationError (Some jwt.ErrSignatureInvalid) ""
         jwt.ValidationErrorSignatureInvalid <> ErrUnauthorized.
Proof.
  intros provider req0 req session forger w Hm Hsame Hst Hmac.
  split; [| discriminate].
  eapply refused_state_returns.
  rewrite Hst, Login_state by (rewrite Hsame; exact Hm).
  rewrite Hsame. unfold jwt.Parse, jwt.parseSegments.
  rewrite GetSigningMethod_Alg.
  unfold keyFunc. cbn [jwt.Method].
  rewrite (proj2 (SigningMethod_eqb_eq _ _) eq_refl). cbn [negb].
  unfold jwt.Verify. rewrite Hm.
  apply String.eqb_neq in Hmac.
  match goal with
  | |- context [String.eqb ?a ?b] =>
      replace (String.eqb a b) with false by (symmetry; exact Hmac)
  end.
  reflexivity.
Qed.

(** C2, on a state token signed under the configured method and secret
    whose subject is "other": it is not rejected; the handler exchanges
    the code, fetches the profile and logs the account in. *)
Theorem wrong_subject_state_accepted :
  defaultAuthorizeHandler hmac now (Scenario.issuer 42) Scenario.provider
    (Scenario.request ""
       (jwt.Compact (Some "HS256") [("sub", jwt.VString "other")]
          (hmac jwt.HS256 "secret"
             ("HS256", [("sub", jwt.VString "other")]))))
    (Scenario.session false)
    {| db := Scenario.emptyDB; calls := [] |}
  = (Return (Some (Identity {| Provider := "github"; UID := "42";
                               UserID := "" |})) None,
     {| db := {| identities := [{| Provider := "github"; UID := "42";
                                   UserID := "" |}];
                 users := []; nextPK := 123;
                 createError := None; firstOrCreateError := None;
                 scanError := None; firstError := None;
                 rawFirst := sqlError |};
        calls := [TokenExchange
                    (OAuthConfig Scenario.provider
                       (Scenario.request "" jwt.BadSegments)
                       (Scenario.session false)) "c0de";
                  UsersGet "t"] |}).
Proof.
  unfold defaultAuthorizeHandler, jwt.Parse.
  cbn [State Scenario.request]. unfold jwt.parseSegments.
  change (jwt.GetSigningMethod "HS256") with (Some jwt.HS256).
  cbn [keyFunc jwt.Method Scenario.session SigningMethod SignedString
       jwt.SigningMethod_eqb negb].
  unfold jwt.Verify. cbn [jwt.isHMAC]. rewrite String.eqb_refl.
  reflexivity.
Qed.

End StateToken.

(** *** The identity linker *)

Lemma Sprint_nonempty : forall z, Sprint z <> "".
Proof.
  intros z. unfold Sprint.
  destruct (Z.to_int z) as [d | d]; destruct d; discriminate.
Qed.

(** A lookup condition with a provider and a uid and no userId constrains
    exactly the key. *)
Lemma matches_provider_uid :
  forall p u r,
    p <> "" -> u <> "" ->
    (matches {| Provider := p; UID := u; UserID := "" |} r = true
     <-> Provider r = p /\ UID r = u).
Proof.
  intros p u r Hp Hu. unfold matches, field_matches. cbn [Provider UID UserID].
  apply String.eqb_neq in Hp. apply String.eqb_neq in Hu.
  rewrite Hp, Hu, String.eqb_refl. cbn [orb]. rewrite andb_true_r.
  rewrite andb_true_iff, !String.eqb_eq.
  split; intros [H1 H2]; split; congruence.
Qed.

(** Whatever else a condition constrains, a row it matches has its
    provider and uid when these are set. *)
Lemma matches_has_key :
  forall cond r,
    Provider cond <> "" -> UID cond <> "" ->
    matches cond r = true ->
    Provider r = Provider cond /\ UID r = UID cond.
Proof.
  intros cond r Hp Hu. unfold matches, field_matches.
  apply String.eqb_neq in Hp. apply String.eqb_neq in Hu.
  rewrite Hp, Hu. cbn [orb]. rewrite !andb_true_iff, !String.eqb_eq.
  intros [[H1 H2] _]. split; congruence.
Qed.

Lemma matches_key :
  forall id r,
    matches {| Provider := "github"; UID := Sprint id; UserID := "" |} r = true
    <-> Provider r = "github" /\ UID r = Sprint id.
Proof.
  intros id r. apply matches_provider_uid.
  - discriminate.
  - apply Sprint_nonempty.
Qed.

Lemma find_key_absent :
  forall rows id userId,
    KeyAbsent "github" (Sprint id) rows ->
    find (matches {| Provider := "github"; UID := Sprint id;
                     UserID := userId |}) rows = None.
Proof.
  intros rows id userId Habs.
  destruct (find _ rows) as [r |] eqn:Hf; [| reflexivity].
  exfalso. apply find_some in Hf. destruct Hf as [Hin Hm].
  apply matches_has_key in Hm; [| discriminate | apply Sprint_nonempty].
  exact (Habs r Hin Hm).
Qed.

Lemma find_key_present :
  forall rows id row,
    In row rows -> Provider row = "github" -> UID row = Sprint id ->
    KeyUnique rows ->
    find (matches {| Provider := "github"; UID := Sprint id; UserID := "" |})
         rows = Some row.
Proof.
  intros rows id row Hin Hp Hu Huniq.
  destruct (find _ rows) as [r |] eqn:Hf.
  - apply find_some in Hf. destruct Hf as [Hin' Hm].
    apply matches_key in Hm. destruct Hm as [Hp' Hu'].
    f_equal. apply Huniq; congruence.
  - exfalso. pose proof (find_none _ _ Hf row Hin) as Hn.
    assert (Ht : matches {| Provider := "github"; UID := Sprint id;
                            UserID := "" |} row = true)
      by (apply matches_key; split; assumption).
    rewrite Ht in Hn. discriminate.
Qed.

(** The three answers of the lookup of line 99. *)
Lemma Scan_absent :
  forall tx id out,
    scanError tx = None ->
    KeyAbsent "github" (Sprint id) (identities tx) ->
    Scan tx {| Provider := "github"; UID := Sprint id; UserID := "" |} out
    = (out, Some ErrRecordNotFound).
Proof.
  intros tx id out Hs Habs. unfold Scan.
  rewrite Hs, (find_key_absent _ _ "" Habs). reflexivity.
Qed.

Lemma Scan_present :
  forall tx id out row,
    scanError tx = None ->
    In row (identities tx) ->
    Provider row = "github" -> UID row = Sprint id ->
    KeyUnique (identities tx) ->
    Scan tx {| Provider := "github"; UID := Sprint id; UserID := "" |} out
    = (row, None).
Proof.
  intros tx id out row Hs Hin Hp Hu Huniq. unfold Scan.
  rewrite Hs, (find_key_present _ _ _ Hin Hp Hu Huniq). reflexivity.
Qed.

Lemma Scan_failed :
  forall tx cond out msg,
    scanError tx = Some msg ->
    Scan tx cond out = (out, Some (ErrorString msg)).
Proof. intros tx cond out msg Hs. unfold Scan. rewrite Hs. reflexivity. Qed.

Section Linker.

Variable hmac : jwt.SigningMethod -> string -> jwt.SigningInput -> string.
Variable now : Z.
Variable issuer : Issuer.
Variable provider : GithubProvider.
Variable req : Request.
Variable session : Session.
Variable w : World.

(** With an accepted state token, a successful exchange and a profile
    that carries an id, the handler is the linking step run after the two
    calls to the issuer. *)
Lemma handler_reaches_linker :
  forall tkn user id,
    snd (jwt.Parse hmac now (State req) (keyFunc session)) = None ->
    Exchange issuer (OAuthConfig provider req session) (Code req) = inr tkn ->
    UsersGet_ issuer tkn = inr user ->
    ID user = Some id ->
    defaultAuthorizeHandler hmac now issuer provider req session w
    = linkIdentity provider session id
        {| db := db w;
           calls := (calls w ++
                     [TokenExchange (OAuthConfig provider req session)
                        (Code req)]) ++ [UsersGet tkn] |}.
Proof.
  intros tkn user id Herr Hex Hget Hid.
  destruct (Parse_ok_token hmac now _ _ Herr) as [token Htok].
  pose proof (Parse_never_rejected hmac now _ _ _ Htok) as Hrej.
  unfold defaultAuthorizeHandler.
  destruct (jwt.Parse hmac now (State req) (keyFunc session)) as [t e].
  cbn in Herr, Htok. subst t e.
  rewrite Hrej, Hex. cbn [db calls]. rewrite Hget, Hid. reflexivity.
Qed.


(** C5: when the identity for (provider, uid) exists with an empty userId
    and a user model is configured, the handler returns
    [ErrInvalidAccount] and the store is as it was. *)
Theorem orphan_identity_invalid_account :
  forall tkn user id row,
    snd (jwt.Parse hmac now (State req) (keyFunc session)) = None ->
    Exchange issuer (OAuthConfig provider req session) (Code req) = inr tkn ->
    UsersGet_ issuer tkn = inr user ->
    ID user = Some id ->
    UserModel session = true ->
    In row (identities (db w)) ->
    Provider row = "github" -> UID row = Sprint id -> UserID row = "" ->
    KeyUnique (identities (db w)) ->
    exists w',
      defaultAuthorizeHandler hmac now issuer provider req session w
      = (Return None (Some ErrInvalidAccount), w')
      /\ db w' = db w.
Proof.
  intros tkn user id row Herr Hex Hget Hid Hum Hin Hp Hu Hempty Huniq.
  rewrite (handler_reaches_linker _ _ _ Herr Hex Hget Hid).
  unfold linkIdentity, GetName. cbn [db calls].
  destruct (scanError (db w)) as [msg |] eqn:Hs.
  - rewrite (Scan_failed _ _ _ _ Hs). cbn [RecordNotFound negb UserID].
    rewrite Hum. eexists. split; reflexivity.
  - rewrite (Scan_present _ _ _ _ Hs Hin Hp Hu Huniq).
    cbn [RecordNotFound negb]. rewrite Hum, Hempty.
    eexists. split; reflexivity.
Qed.

(** C7, as amended: on a first login (the lookup of the identity answers
    record-not-found) with a user model the user row is created first.  If
    that creation fails, its error is returned and the store is as it was;
    if it succeeds and the creation of the identity fails, that error is
    returned and the new user row stays in the store. *)
Theorem first_login_creation_failures :
  forall tkn user id,
    snd (jwt.Parse hmac now (State req) (keyFunc session)) = None ->
    Exchange issuer (OAuthConfig provider req session) (Code req) = inr tkn ->
    UsersGet_ issuer tkn = inr user ->
    ID user = Some id ->
    UserModel session = true ->
    scanError (db w) = None ->
    KeyAbsent "github" (Sprint id) (identities (db w)) ->
    (forall e,
        createError (db w) = Some e ->
        exists w',
          defaultAuthorizeHandler hmac now issuer provider req session w
          = (Return None (Some e), w')
          /\ db w' = db w) /\
    (forall e,
        createError (db w) = None ->
        firstOrCreateError (db w) = Some e ->
        exists w',
          defaultAuthorizeHandler hmac now issuer provider req session w
          = (Return (Some (User {| PK := nextPK (db w) |})) (Some e), w')
          /\ users (db w') = (users (db w) ++ [{| PK := nextPK (db w) |}])%list
          /\ identities (db w') = identities (db w)).
Proof.
  intros tkn user id Herr Hex Hget Hid Hum Hs Habs.
  rewrite (handler_reaches_linker _ _ _ Herr Hex Hget Hid).
  unfold linkIdentity, GetName. cbn [db calls].
  rewrite (Scan_absent _ _ _ Hs Habs). cbn [RecordNotFound negb].
  rewrite Hum.
  split; intros e.
  - intros Hc. unfold Create. rewrite Hc.
    eexists. split; reflexivity.
  - intros Hc Hf. unfold Create. rewrite Hc.
    unfold FirstOrCreate, withTables.
    cbn [scanError firstOrCreateError identities PK Provider UID].
    rewrite Hs, (find_key_absent _ _ _ Habs), Hf.
    eexists. split; [reflexivity |]. split; reflexivity.
Qed.

(** On a first login with a user model and a store that accepts both
    insertions, the user row and the identity row bound to it are
    created and the user is the principal. *)
Lemma first_login_with_user_model :
  forall tkn user id,
    snd (jwt.Parse hmac now (State req) (keyFunc session)) = None ->
    Exchange issuer (OAuthConfig provider req session) (Code req) = inr tkn ->
    UsersGet_ issuer tkn = inr user ->
    ID user = Some id ->
    UserModel session = true ->
    scanError (db w) = None ->
    KeyAbsent "github" (Sprint id) (identities (db w)) ->
    createError (db w) = None ->
    firstOrCreateError (db w) = None ->
    exists w',
      defaultAuthorizeHandler hmac now issuer provider req session w
      = (Return (Some (User {| PK := nextPK (db w) |})) None, w')
      /\ users (db w') = (users (db w) ++ [{| PK := nextPK (db w) |}])%list
      /\ identities (db w')
         = (identities (db w) ++
            [{| Provider := "github"; UID := Sprint id;
                UserID := Sprint (nextPK (db w)) |}])%list.
Proof.
  intros tkn user id Herr Hex Hget Hid Hum Hs Habs Hc Hf.
  rewrite (handler_reaches_linker _ _ _ Herr Hex Hget Hid).
  unfold linkIdentity, GetName. cbn [db calls].
  rewrite (Scan_absent _ _ _ Hs Habs). cbn [RecordNotFound negb].
  rewrite Hum.
  unfold Create. rewrite Hc.
  unfold FirstOrCreate, withTables.
  cbn [scanError firstOrCreateError identities PK Provider UID].
  rewrite Hs, (find_key_absent _ _ _ Habs), Hf.
  eexists. split; [reflexivity |]. split; reflexivity.
Qed.


End Linker.

(** *** The theorems at work on the concrete host *)

Lemma New_blank_credentials_panic_witness :
  (New Scenario.mac 0 (Scenario.issuer 42)
     (Some {| ClientID := "x"; ClientSecret := ""; AuthorizeURL_ := "";
              TokenURL_ := ""; RedirectURL := ""; Scopes := [];
              AuthorizeHandler := None |})
   = Panicked (ErrorString "Github's ClientID can't be blank") \/
   New Scenario.mac 0 (Scenario.issuer 42)
     (Some {| ClientID := "x"; ClientSecret := ""; AuthorizeURL_ := "";
              TokenURL_ := ""; RedirectURL := ""; Scopes := [];
              AuthorizeHandler := None |})
   = Panicked (ErrorString "Github's ClientSecret can't be blank")) /\
  (forall provider,
      New Scenario.mac 0 (Scenario.issuer 42)
        (Some {| ClientID := "x"; ClientSecret := ""; AuthorizeURL_ := "";
                 TokenURL_ := ""; RedirectURL := ""; Scopes := [];
                 AuthorizeHandler := None |})
      <> Built provider).
Proof.
  apply (New_blank_credentials_panic Scenario.mac 0 (Scenario.issuer 42)).
  right. eexists. split; [reflexivity |]. right. reflexivity.
Defined.

Lemma OAuthConfig_redirect_nonempty_scheme_witness :
  oauth2.RedirectURL
    (OAuthConfig Scenario.provider
       (Scenario.request "https" jwt.BadSegments) (Scenario.session false))
  = "httpsapp.example.com/auth/github/callback".
Proof.
  apply (OAuthConfig_redirect_nonempty_scheme Scenario.provider
           (Scenario.request "https" jwt.BadSegments) (Scenario.session false)).
  simpl. discriminate.
Defined.

Lemma state_round_trip_witness :
  (exists token,
      jwt.Parse Scenario.mac 0
        (State (Scenario.request "" (Scenario.minted (Scenario.session false))))
        (keyFunc (Scenario.session false)) = (Some token, None)
      /\ jwt.Valid token = true) /\
  (exists rest,
      calls (snd (defaultAuthorizeHandler Scenario.mac 0 (Scenario.issuer 42)
                    Scenario.provider
                    (Scenario.request ""
                       (Scenario.minted (Scenario.session false)))
                    (Scenario.session false)
                    {| db := Scenario.emptyDB; calls := [] |}))
      = ([] ++
         TokenExchange
           (OAuthConfig Scenario.provider
              (Scenario.request "" (Scenario.minted (Scenario.session false)))
              (Scenario.session false)) "c0de" :: rest)%list).
Proof.
  apply (state_round_trip Scenario.mac 0 (Scenario.issuer 42)
           Scenario.provider (Scenario.request "" jwt.BadSegments)
           (Scenario.request "" (Scenario.minted (Scenario.session false)))
           (Scenario.session false)
           {| db := Scenario.emptyDB; calls := [] |}).
  - reflexivity.
  - reflexivity.
Defined.

Lemma alg_mismatch_refused_witness :
  exists e,
    defaultAuthorizeHandler Scenario.mac 0 (Scenario.issuer 42)
      Scenario.provider
      (Scenario.request ""
         (jwt.Compact (Some "HS512") [("sub", jwt.VString "state")] "sig"))
      (Scenario.session false)
      {| db := Scenario.emptyDB; calls := [] |}
    = (Return None (Some e), {| db := Scenario.emptyDB; calls := [] |})
    /\ e <> ErrUnauthorized
    /\ (forall m', jwt.GetSigningMethod "HS512" = Some m' ->
                   e = ValidationError
                         (Some (ErrorString "unexpected signing method")) ""
                         jwt.ValidationErrorUnverifiable
                   /\ Error e = "unexpected signing method")
    /\ (jwt.GetSigningMethod "HS512" = None ->
        e = ValidationError None "signing method (alg) is unavailable."
              jwt.ValidationErrorUnverifiable
        /\ Error e = "signing method (alg) is unavailable.").
Proof.
  apply (alg_mismatch_refused Scenario.mac 0 (Scenario.issuer 42)
           Scenario.provider
           (Scenario.request ""
              (jwt.Compact (Some "HS512") [("sub", jwt.VString "state")] "sig"))
           (Scenario.session false)
           {| db := Scenario.emptyDB; calls := [] |}
           "HS512").
  - reflexivity.
  - simpl. discriminate.
Defined.

(** C8 as it was stated fails on a header that declares an algorithm the
    library has not registered: the error is the parser's, and it is not
    "unexpected signing method". *)
Lemma alg_mismatch_unregistered_counterexample :
  jwt.headerAlg
    (State (Scenario.request ""
              (jwt.Compact (Some "HS1024") [("sub", jwt.VString "state")]
                 "sig")))
  = Some "HS1024"
  /\ "HS1024" <> jwt.Alg (SigningMethod (Scenario.session false))
  /\ defaultAuthorizeHandler Scenario.mac 0 (Scenario.issuer 42)
       Scenario.provider
       (Scenario.request ""
          (jwt.Compact (Some "HS1024") [("sub", jwt.VString "state")] "sig"))
       (Scenario.session false)
       {| db := Scenario.emptyDB; calls := [] |}
     = (Return None
          (Some (ValidationError None "signing method (alg) is unavailable."
                   jwt.ValidationErrorUnverifiable)),
        {| db := Scenario.emptyDB; calls := [] |})
  /\ Error (ValidationError None "signing method (alg) is unavailable."
              jwt.ValidationErrorUnverifiable)
     <> "unexpected signing method".
Proof.
  split; [reflexivity |]. split; [simpl; discriminate |].
  split; [reflexivity |]. simpl. discriminate.
Qed.

Lemma forged_state_signature_invalid_witness :
  defaultAuthorizeHandler Scenario.mac 0 (Scenario.issuer 42)
    Scenario.provider
    (Scenario.request "" (Scenario.minted Scenario.forger))
    (Scenario.session false)
    {| db := Scenario.emptyDB; calls := [] |}
  = (Return None
       (Some (ValidationError (Some jwt.ErrSignatureInvalid) ""
                jwt.ValidationErrorSignatureInvalid)),
     {| db := Scenario.emptyDB; calls := [] |})
  /\ ValidationError (Some jwt.ErrSignatureInvalid) ""
       jwt.ValidationErrorSignatureInvalid <> ErrUnauthorized.
Proof.
  apply (forged_state_signature_invalid Scenario.mac 0 (Scenario.issuer 42)
           Scenario.provider (Scenario.request "" jwt.BadSegments)
           (Scenario.request "" (Scenario.minted Scenario.forger))
           (Scenario.session false) Scenario.forger
           {| db := Scenario.emptyDB; calls := [] |}).
  - reflexivity.
  - reflexivity.
  - reflexivity.
  - vm_compute. discriminate.
Defined.

Lemma orphan_identity_invalid_account_witness :
  exists w',
    defaultAuthorizeHandler Scenario.mac 0 (Scenario.issuer 9)
      Scenario.provider
      (Scenario.request "" (Scenario.minted (Scenario.session true)))
      (Scenario.session true)
      {| db := Scenario.orphanDB; calls := [] |}
    = (Return None (Some ErrInvalidAccount), w')
    /\ db w' = Scenario.orphanDB.
Proof.
  apply (orphan_identity_invalid_account Scenario.mac 0 (Scenario.issuer 9)
           Scenario.provider
           (Scenario.request "" (Scenario.minted (Scenario.session true)))
           (Scenario.session true)
           {| db := Scenario.orphanDB; calls := [] |}
           "t" {| ID := Some 9%Z |} 9%Z
           {| Provider := "github"; UID := "9"; UserID := "" |}).
  - reflexivity.
  - reflexivity.
  - reflexivity.
  - reflexivity.
  - reflexivity.
  - simpl. left. reflexivity.
  - reflexivity.
  - reflexivity.
  - reflexivity.
  - intros r1 r2 H1 H2 _ _. simpl in H1, H2.
    destruct H1 as [H1 | []]. destruct H2 as [H2 | []].
    rewrite <- H1, <- H2. reflexivity.
Defined.

Lemma first_login_creation_failures_witness :
  (exists w',
      defaultAuthorizeHandler Scenario.mac 0 (Scenario.issuer 7)
        Scenario.provider
        (Scenario.request "" (Scenario.minted (Scenario.session true)))
        (Scenario.session true)
        {| db := Scenario.refusingDB; calls := [] |}
      = (Return None (Some (ErrorString "insert failed")), w')
      /\ db w' = Scenario.refusingDB) /\
  (exists w',
      defaultAuthorizeHandler Scenario.mac 0 (Scenario.issuer 7)
        Scenario.provider
        (Scenario.request "" (Scenario.minted (Scenario.session true)))
        (Scenario.session true)
        {| db := Scenario.halfDB; calls := [] |}
      = (Return (Some (User {| PK := 123 |}))
           (Some (ErrorString "insert failed")), w')
      /\ users (db w') = [{| PK := 123 |}]
      /\ identities (db w') = []).
Proof.
  split.
  - apply (proj1
             (first_login_creation_failures Scenario.mac 0 (Scenario.issuer 7)
                Scenario.provider
                (Scenario.request "" (Scenario.minted (Scenario.session true)))
                (Scenario.session true)
                {| db := Scenario.refusingDB; calls := [] |}
                "t" {| ID := Some 7%Z |} 7%Z
                eq_refl eq_refl eq_refl eq_refl eq_refl eq_refl
                (fun r (H : In r []) => match H with end))).
    reflexivity.
  - apply (proj2
             (first_login_creation_failures Scenario.mac 0 (Scenario.issuer 7)
                Scenario.provider
                (Scenario.request "" (Scenario.minted (Scenario.session true)))
                (Scenario.session true)
                {| db := Scenario.halfDB; calls := [] |}
                "t" {| ID := Some 7%Z |} 7%Z
                eq_refl eq_refl eq_refl eq_refl eq_refl eq_refl
                (fun r (H : In r []) => match H with end))).
    + reflexivity.
    + reflexivity.
Defined.

(** C7 as it was stated fails when the lookup of the identity itself
    fails: no identity exists for the key and the insertion of a user
    would be refused, yet no insertion is tried and the handler returns
    [ErrInvalidAccount], not the error of the insertion. *)
Lemma first_login_lookup_failure_counterexample :
  KeyAbsent "github" (Sprint 7) (identities Scenario.unreachableDB)
  /\ createError Scenario.unreachableDB = Some (ErrorString "insert failed")
  /\ defaultAuthorizeHandler Scenario.mac 0 (Scenario.issuer 7)
       Scenario.provider (Scenario.callback (Scenario.session true))
       (Scenario.session true) (Scenario.world Scenario.unreachableDB)
     = (Return None (Some ErrInvalidAccount),
        {| db := Scenario.unreachableDB;
           calls := [TokenExchange
                       (OAuthConfig Scenario.provider
                          (Scenario.callback (Scenario.session true))
                          (Scenario.session true)) "c0de";
                     UsersGet "t"] |})
  /\ ErrInvalidAccount <> ErrorString "insert failed".
Proof.
  split; [intros r H; destruct H |]. split; [reflexivity |].
  split; [reflexivity | discriminate].
Qed.



(** ** Further properties of the provider *)

(** *** Decimal rendering and list lookups *)

Lemma to_int_not_nil :
  forall z, Z.to_int z <> Decimal.Pos Decimal.Nil /\
            Z.to_int z <> Decimal.Neg Decimal.Nil.
Proof.
  intros z. split; intros H.
  - pose proof (DecimalZ.of_to z) as Hz. rewrite H in Hz. cbn in Hz.
    subst z. discriminate.
  - pose proof (DecimalZ.of_to z) as Hz. rewrite H in Hz. cbn in Hz.
    subst z. discriminate.
Qed.

Lemma Sprint_inj : forall z z', Sprint z = Sprint z' -> z = z'.
Proof.
  intros z z' H. unfold Sprint in H.
  apply DecimalZ.to_int_inj.
  assert (Hs : Some (Z.to_int z) = Some (Z.to_int z')).
  { destruct (to_int_not_nil z) as [H1 H2].
    destruct (to_int_not_nil z') as [H1' H2'].
    rewrite <- (NilZero.isi _ H1 H2), <- (NilZero.isi _ H1' H2'), H.
    reflexivity. }
  injection Hs as Hs. exact Hs.
Qed.

Lemma find_snoc_new :
  forall (A : Type) (f : A -> bool) l y,
    (forall x, In x l -> f x = false) -> f y = true ->
    find f (l ++ [y]) = Some y.
Proof.
  intros A f l y Hl Hy. induction l as [| a l IH]; cbn.
  - rewrite Hy. reflexivity.
  - rewrite (Hl a (or_introl eq_refl)). apply IH.
    intros x Hx. apply Hl. right. exact Hx.
Qed.

Lemma Scan_not_found :
  forall tx id out a scanned,
    Scan tx {| Provider := "github"; UID := Sprint id; UserID := "" |} out
    = (a, scanned) ->
    RecordNotFound scanned = true ->
    scanError tx = None /\
    KeyAbsent "github" (Sprint id) (identities tx) /\ a = out.
Proof.
  intros tx id out a scanned. unfold Scan.
  destruct (scanError tx) as [msg |].
  - intros H. injection H as <- <-. discriminate.
  - destruct (find _ (identities tx)) as [r |] eqn:Hf;
      intros H; injection H as <- <-; [discriminate |].
    intros _. split; [reflexivity |]. split; [| reflexivity].
    intros r Hin Hk. pose proof (find_none _ _ Hf r Hin) as Hn.
    apply matches_key in Hk. rewrite Hk in Hn. discriminate.
Qed.

(** A key of decimal digits that is the rendering of a key the store
    handed out stands for that key. *)
Lemma numericKey_Sprint :
  forall pk, (0 <= pk)%Z -> numericKey (Sprint pk) = Some pk.
Proof.
  intros pk Hpk. unfold numericKey, Sprint.
  destruct (to_int_not_nil pk) as [Hpos _].
  pose proof (DecimalZ.of_to pk) as Hz.
  destruct (Z.to_int pk) as [d | d] eqn:Hd.
  - cbn [NilZero.string_of_int].
    rewrite NilZero.usu by (intros ->; apply Hpos; reflexivity).
    cbn in Hz. rewrite Hz. reflexivity.
  - exfalso. destruct pk as [| q | q]; cbn in Hd; try discriminate. lia.
Qed.

Lemma KeyUnique_snoc :
  forall rows r,
    KeyUnique rows -> KeyAbsent (Provider r) (UID r) rows ->
    KeyUnique (rows ++ [r]).
Proof.
  intros rows r Hu Ha r1 r2 H1 H2 Hp Hk.
  apply in_app_or in H1. apply in_app_or in H2.
  destruct H1 as [H1 | [H1 | []]]; destruct H2 as [H2 | [H2 | []]].
  - apply Hu; assumption.
  - subst r2. exfalso. apply (Ha r1 H1). split; assumption.
  - subst r1. exfalso. apply (Ha r2 H2). split; symmetry; assumption.
  - congruence.
Qed.

(** *** Construction, client configuration and login *)

Section Construction.

Variable hmac : jwt.SigningMethod -> string -> jwt.SigningInput -> string.
Variable now : Z.
Variable issuer : Issuer.

(** What [New] builds from a Config with both credentials. *)
Lemma New_built_config :
  forall c provider,
    New hmac now issuer (Some c) = Built provider ->
    ClientID c <> "" /\ ClientSecret c <> "" /\
    ClientID (Config_ provider) = ClientID c /\
    ClientSecret (Config_ provider) = ClientSecret c /\
    AuthorizeURL_ (Config_ provider) =
      (if String.eqb (AuthorizeURL_ c) "" then AuthorizeURL
       else AuthorizeURL_ c) /\
    TokenURL_ (Config_ provider) =
      (if String.eqb (TokenURL_ c) "" then TokenURL else TokenURL_ c) /\
    RedirectURL (Config_ provider) = RedirectURL c /\
    Scopes (Config_ provider) = Scopes c /\
    (forall h, AuthorizeHandler c = Some h ->
               AuthorizeHandler (Config_ provider) = Some h) /\
    AuthorizeHandler (Config_ provider) <> None.
Proof.
  intros c provider. unfold New.
  destruct (String.eqb (ClientID c) "") eqn:Hid; [discriminate |].
  destruct (String.eqb (ClientSecret c) "") eqn:Hsec; [discriminate |].
  apply String.eqb_neq in Hid. apply String.eqb_neq in Hsec.
  cbn [AuthorizeHandler].
  destruct (AuthorizeHandler c) as [h |] eqn:Hh; intros Hb;
    injection Hb as <-; cbn;
    repeat (split; [first [assumption | reflexivity] |]).
  - split; [intros h' Hh'; exact Hh' | discriminate].
  - split; [intros h' Hh'; discriminate | discriminate].
Qed.

Lemma default_nonblank :
  forall url dflt, dflt <> "" ->
    (if String.eqb url "" then dflt else url) <> "".
Proof.
  intros url dflt Hd. destruct (String.eqb url "") eqn:E.
  - exact Hd.
  - apply String.eqb_neq. exact E.
Qed.

(** The client configuration of a built provider carries the credentials
    of the Config, both non-blank, and an authorize and a token endpoint
    that are never blank: the configured one, or GitHub's when none was
    configured. *)
Theorem built_provider_client_config :
  forall c provider req session,
    New hmac now issuer (Some c) = Built provider ->
    oauth2.ClientID (OAuthConfig provider req session) = ClientID c /\
    oauth2.ClientSecret (OAuthConfig provider req session) = ClientSecret c /\
    oauth2.ClientID (OAuthConfig provider req session) <> "" /\
    oauth2.ClientSecret (OAuthConfig provider req session) <> "" /\
    oauth2.AuthURL (oauth2.Endpoint_ (OAuthConfig provider req session)) <> "" /\
    oauth2.TokenURL (oauth2.Endpoint_ (OAuthConfig provider req session)) <> "" /\
    (AuthorizeURL_ c = "" ->
     oauth2.AuthURL (oauth2.Endpoint_ (OAuthConfig provider req session))
     = "https://github.com/login/oauth/authorize") /\
    (TokenURL_ c = "" ->
     oauth2.TokenURL (oauth2.Endpoint_ (OAuthConfig provider req session))
     = "https://github.com/login/oauth/access_token") /\
    (AuthorizeURL_ c <> "" ->
     oauth2.AuthURL (oauth2.Endpoint_ (OAuthConfig provider req session))
     = AuthorizeURL_ c) /\
    (TokenURL_ c <> "" ->
     oauth2.TokenURL (oauth2.Endpoint_ (OAuthConfig provider req session))
     = TokenURL_ c) /\
    oauth2.Scopes (OAuthConfig provider req session) = Scopes c.
Proof.
  intros c provider req session Hb.
  destruct (New_built_config _ _ Hb)
    as (Hid & Hsec & Eid & Esec & Eauth & Etok & _ & Escopes & _).
  unfold OAuthConfig. cbn.
  rewrite Eid, Esec, Eauth, Etok, Escopes.
  repeat split; try assumption.
  - apply default_nonblank. discriminate.
  - apply default_nonblank. discriminate.
  - intros ->. reflexivity.
  - intros ->. reflexivity.
  - intros H. apply String.eqb_neq in H. rewrite H. reflexivity.
  - intros H. apply String.eqb_neq in H. rewrite H. reflexivity.
Qed.

(** Building again from the Config of a built provider gives the same
    provider: the defaults and the handler installed the first time are
    kept. *)
Theorem New_idempotent :
  forall c provider,
    New hmac now issuer (Some c) = Built provider ->
    New hmac now issuer (Some (Config_ provider)) = Built provider.
Proof.
  intros c provider Hb.
  destruct (New_built_config _ _ Hb)
    as (Hid & Hsec & Eid & Esec & Eauth & Etok & _ & _ & _ & Hh).
  assert (Ha : AuthorizeURL_ (Config_ provider) <> "")
    by (rewrite Eauth; apply default_nonblank; discriminate).
  assert (Ht : TokenURL_ (Config_ provider) <> "")
    by (rewrite Etok; apply default_nonblank; discriminate).
  rewrite <- Eid in Hid. rewrite <- Esec in Hsec.
  apply String.eqb_neq in Hid, Hsec, Ha, Ht.
  unfold New. rewrite Hid, Hsec. cbn [AuthorizeHandler].
  rewrite Ha, Ht.
  destruct provider as [[cid csec au tu ru sc [h |]]]; cbn in *.
  - reflexivity.
  - contradiction.
Qed.

(** A custom handler in the Config is the one the provider keeps. *)
Theorem New_keeps_custom_handler :
  forall c h provider,
    AuthorizeHandler c = Some h ->
    New hmac now issuer (Some c) = Built provider ->
    AuthorizeHandler (Config_ provider) = Some h.
Proof.
  intros c h provider Hh Hb.
  destruct (New_built_config _ _ Hb) as (_ & _ & _ & _ & _ & _ & _ & _ & Hk & _).
  apply Hk. exact Hh.
Qed.

(** The redirect URL of the client configuration is the same for every
    provider: nothing of the Config, its static RedirectURL included,
    enters it. *)
Theorem OAuthConfig_redirect_independent_of_config :
  forall provider provider' req session,
    oauth2.RedirectURL (OAuthConfig provider req session) =
    oauth2.RedirectURL (OAuthConfig provider' req session).
Proof. intros. reflexivity. Qed.

(** [Login] of a built provider answers 302 with the authorization URL of
    the provider's client configuration: its authorize endpoint (GitHub's
    when none was configured), response type "code", the client id of the
    Config, the redirect URL derived from the request, and the scopes. *)
Theorem Login_of_built_provider :
  forall c provider req session,
    New hmac now issuer (Some c) = Built provider ->
    Status (Login hmac provider req session) = 302%Z /\
    oauth2.endpoint (Location (Login hmac provider req session))
    = (if String.eqb (AuthorizeURL_ c) "" then
         "https://github.com/login/oauth/authorize"
       else AuthorizeURL_ c) /\
    oauth2.response_type (Location (Login hmac provider req session)) = "code" /\
    oauth2.client_id (Location (Login hmac provider req session)) = ClientID c /\
    oauth2.redirect_uri (Location (Login hmac provider req session))
    = oauth2.RedirectURL (OAuthConfig provider req session) /\
    oauth2.scope (Location (Login hmac provider req session)) = Scopes c.
Proof.
  intros c provider req session Hb.
  destruct (New_built_config _ _ Hb)
    as (_ & _ & Eid & _ & Eauth & _ & _ & Escopes & _).
  unfold Login.
  destruct (jwt.SignedString hmac _ _) as [signedToken e]. cbn.
  rewrite Eid, Eauth, Escopes. repeat split; reflexivity.
Qed.

(** Under a signing method that is not of the HMAC family the secret
    cannot sign: [Login] still redirects, with an empty state, and the
    callback that carries that state panics on the nil token before it
    calls the issuer or touches the store. *)
Theorem Login_unsignable_state :
  forall provider req0 req session w,
    jwt.isHMAC (SigningMethod session) = false ->
    oauth2.state (Location (Login hmac provider req0 session)) = jwt.BadSegments
    /\ Status (Login hmac provider req0 session) = 302%Z
    /\ (State req = oauth2.state (Location (Login hmac provider req0 session)) ->
        defaultAuthorizeHandler hmac now issuer provider req session w
        = (Panic "nil pointer dereference", w)).
Proof.
  intros provider req0 req session w Hm.
  assert (Hs : oauth2.state (Location (Login hmac provider req0 session))
               = jwt.BadSegments).
  { unfold Login, jwt.SignedString, jwt.Sign. cbn. rewrite Hm.
    destruct (SigningMethod session); reflexivity. }
  split; [exact Hs |]. split.
  - unfold Login. destruct (jwt.SignedString hmac _ _). reflexivity.
  - rewrite Hs. intros Hst. unfold defaultAuthorizeHandler. rewrite Hst.
    reflexivity.
Qed.

End Construction.

(** *** The state check and the calls to the issuer *)

Section Callback.

Variable hmac : jwt.SigningMethod -> string -> jwt.SigningInput -> string.
Variable now : Z.
Variable issuer : Issuer.

(** A state the parser answers with an error ends the handler where it
    started: either on the nil token or by returning that error. *)
Lemma refused_state_outcome :
  forall provider req session w e,
    snd (jwt.Parse hmac now (State req) (keyFunc session)) = Some e ->
    defaultAuthorizeHandler hmac now issuer provider req session w
    = (Return None (Some e), w) \/
    defaultAuthorizeHandler hmac now issuer provider req session w
    = (Panic "nil pointer dereference", w).
Proof.
  intros provider req session w e He.
  destruct (jwt.Parse hmac now (State req) (keyFunc session))
    as [[token |] err] eqn:Hp; cbn in He; subst err.
  - left. eapply refused_state_returns. exact Hp.
  - right. unfold defaultAuthorizeHandler. rewrite Hp. reflexivity.
Qed.

(** The parser returns a nil token only for a string that has not three
    segments. *)
Lemma Parse_nil_token :
  forall tokenString keyFunc,
    fst (jwt.Parse hmac now tokenString keyFunc) = None ->
    tokenString = jwt.BadSegments.
Proof.
  intros tokenString kf. unfold jwt.Parse.
  destruct tokenString as [| cause | alg claims signature
                           | alg claims segment cause].
  - reflexivity.
  - discriminate.
  - destruct (parseSegments_token now
                (jwt.Compact alg claims signature) alg claims signature
                (fun m input key => jwt.Verify hmac m input signature key) kf)
      as [t [Ht _]].
    rewrite Ht. discriminate.
  - destruct (parseSegments_token now
                (jwt.CompactUndecodable alg claims segment cause)
                alg claims segment
                (fun m _ _ => jwt.VerifyUndecodable m cause) kf)
      as [t [Ht _]].
    rewrite Ht. discriminate.
Qed.

(** A signature never verifies under a method outside the HMAC family. *)
Lemma Verify_needs_HMAC :
  forall m input signature key,
    jwt.Verify hmac m input signature key = None -> jwt.isHMAC m = true.
Proof.
  intros m input signature key. unfold jwt.Verify.
  destruct (jwt.isHMAC m); [reflexivity |]. destruct m; discriminate.
Qed.

(** A state token that the parser refuses has no effect: the handler
    returns no principal, makes no call to the issuer and leaves the store
    as it was. *)
Theorem refused_state_no_effect :
  forall provider req session w e,
    snd (jwt.Parse hmac now (State req) (keyFunc session)) = Some e ->
    snd (defaultAuthorizeHandler hmac now issuer provider req session w) = w /\
    forall p err,
      fst (defaultAuthorizeHandler hmac now issuer provider req session w)
      = Return p err ->
      p = None /\ err = Some e.
Proof.
  intros provider req session w e He.
  destruct (refused_state_outcome provider req session w e He) as [H | H];
    rewrite H; cbn.
  - split; [reflexivity |]. intros p err Hr. injection Hr as <- <-.
    split; reflexivity.
  - split; [reflexivity |]. intros p err Hr. discriminate.
Qed.

(** When the configured signing method is not of the HMAC family no state
    is ever accepted: whatever the callback carries, the handler leaves
    the world as it was. *)
Theorem non_hmac_session_accepts_nothing :
  forall provider req session w,
    jwt.isHMAC (SigningMethod session) = false ->
    snd (jwt.Parse hmac now (State req) (keyFunc session)) <> None /\
    snd (defaultAuthorizeHandler hmac now issuer provider req session w) = w.
Proof.
  intros provider req session w Hm.
  assert (Hn : snd (jwt.Parse hmac now (State req) (keyFunc session)) <> None).
  { intros Hacc.
    destruct (accepted_state_is_signed hmac now req session Hacc)
      as (claims & signature & _ & Hv).
    apply Verify_needs_HMAC in Hv. rewrite Hv in Hm. discriminate. }
  split; [exact Hn |].
  destruct (snd (jwt.Parse hmac now (State req) (keyFunc session)))
    as [e |] eqn:He; [| contradiction].
  destruct (refused_state_outcome provider req session w e He) as [H | H];
    rewrite H; reflexivity.
Qed.

(** A state token whose header says "none" is never accepted, whatever
    method is configured (the method "none" included): the handler returns
    an error and nothing else happens. *)
Theorem unsigned_state_never_accepted :
  forall provider req session w claims signature,
    State req = jwt.Compact (Some "none") claims signature ->
    exists e,
      defaultAuthorizeHandler hmac now issuer provider req session w
      = (Return None (Some e), w).
Proof.
  intros provider req session w claims signature Hst.
  destruct (snd (jwt.Parse hmac now (State req) (keyFunc session)))
    as [e |] eqn:He.
  - exists e.
    destruct (jwt.Parse hmac now (State req) (keyFunc session))
      as [[token |] err] eqn:Hp; cbn in He; subst err.
    + eapply refused_state_returns. exact Hp.
    + exfalso.
      pose proof (Parse_nil_token (State req) (keyFunc session)) as Hnil.
      rewrite Hp in Hnil. specialize (Hnil eq_refl).
      rewrite Hst in Hnil. discriminate.
  - exfalso.
    destruct (accepted_state_is_signed hmac now req session He)
      as (claims' & signature' & Heq & Hv).
    pose proof (Verify_needs_HMAC _ _ _ _ Hv) as Hm.
    rewrite Hst in Heq. injection Heq as Halg _ _.
    destruct (SigningMethod session); discriminate.
Qed.

(** When the token endpoint fails, its error is returned as it is; the
    exchange is the only call made, and the store is as it was. *)
Theorem exchange_failure_propagates :
  forall provider req session w e,
    snd (jwt.Parse hmac now (State req) (keyFunc session)) = None ->
    Exchange issuer (OAuthConfig provider req session) (Code req) = inl e ->
    defaultAuthorizeHandler hmac now issuer provider req session w
    = (Return None (Some e),
       {| db := db w;
          calls := calls w ++
                   [TokenExchange (OAuthConfig provider req session)
                      (Code req)] |}).
Proof.
  intros provider req session w e Herr Hex.
  destruct (Parse_ok_token hmac now _ _ Herr) as [token Htok].
  pose proof (Parse_never_rejected hmac now _ _ _ Htok) as Hrej.
  unfold defaultAuthorizeHandler.
  destruct (jwt.Parse hmac now (State req) (keyFunc session)) as [t err].
  cbn in Herr, Htok. subst t err. rewrite Hrej, Hex. reflexivity.
Qed.

(** When the profile request fails, its error is returned as it is, after
    the exchange and the profile call and with the store as it was. *)
Theorem profile_failure_propagates :
  forall provider req session w tkn e,
    snd (jwt.Parse hmac now (State req) (keyFunc session)) = None ->
    Exchange issuer (OAuthConfig provider req session) (Code req) = inr tkn ->
    UsersGet_ issuer tkn = inl e ->
    defaultAuthorizeHandler hmac now issuer provider req session w
    = (Return None (Some e),
       {| db := db w;
          calls := (calls w ++
                    [TokenExchange (OAuthConfig provider req session)
                       (Code req)]) ++ [UsersGet tkn] |}).
Proof.
  intros provider req session w tkn e Herr Hex Hget.
  destruct (Parse_ok_token hmac now _ _ Herr) as [token Htok].
  pose proof (Parse_never_rejected hmac now _ _ _ Htok) as Hrej.
  unfold defaultAuthorizeHandler.
  destruct (jwt.Parse hmac now (State req) (keyFunc session)) as [t err].
  cbn in Herr, Htok. subst t err. rewrite Hrej, Hex. cbn [db calls].
  rewrite Hget. reflexivity.
Qed.

(** A profile that comes back without an id makes the handler panic on
    the nil pointer, before the store is read. *)
Theorem profile_without_id_panics :
  forall provider req session w tkn user,
    snd (jwt.Parse hmac now (State req) (keyFunc session)) = None ->
    Exchange issuer (OAuthConfig provider req session) (Code req) = inr tkn ->
    UsersGet_ issuer tkn = inr user ->
    ID user = None ->
    defaultAuthorizeHandler hmac now issuer provider req session w
    = (Panic "nil pointer dereference",
       {| db := db w;
          calls := (calls w ++
                    [TokenExchange (OAuthConfig provider req session)
                       (Code req)]) ++ [UsersGet tkn] |}).
Proof.
  intros provider req session w tkn user Herr Hex Hget Hid.
  destruct (Parse_ok_token hmac now _ _ Herr) as [token Htok].
  pose proof (Parse_never_rejected hmac now _ _ _ Htok) as Hrej.
  unfold defaultAuthorizeHandler.
  destruct (jwt.Parse hmac now (State req) (keyFunc session)) as [t err].
  cbn in Herr, Htok. subst t err. rewrite Hrej, Hex. cbn [db calls].
  rewrite Hget, Hid. reflexivity.
Qed.

(** Whatever the callback, the handler calls the issuer at most twice and
    in one order: nothing, or the code exchange, or the exchange followed
    by the profile request made with the token the exchange returned. *)
Theorem handler_call_discipline :
  forall provider req session w,
    calls (snd (defaultAuthorizeHandler hmac now issuer provider req session w))
    = calls w \/
    calls (snd (defaultAuthorizeHandler hmac now issuer provider req session w))
    = (calls w ++
       [TokenExchange (OAuthConfig provider req session) (Code req)])%list \/
    exists tkn,
      Exchange issuer (OAuthConfig provider req session) (Code req) = inr tkn /\
      calls (snd (defaultAuthorizeHandler hmac now issuer provider req session w))
      = (calls w ++
         [TokenExchange (OAuthConfig provider req session) (Code req);
          UsersGet tkn])%list.
Proof.
  intros provider req session w. unfold defaultAuthorizeHandler.
  destruct (jwt.Parse hmac now (State req) (keyFunc session))
    as [[token |] err]; [| left; reflexivity].
  destruct (rejected token); [left; reflexivity |].
  destruct err as [e |]; [left; reflexivity |].
  destruct (Exchange issuer _ _) as [e | tkn] eqn:Hex;
    [right; left; reflexivity |].
  right. right. exists tkn. split; [reflexivity |]. cbn [db calls].
  destruct (UsersGet_ issuer tkn) as [e | user]; cbn [snd calls].
  - rewrite <- app_assoc. reflexivity.
  - destruct (ID user) as [id |]; cbn [snd calls].
    + rewrite linkIdentity_calls. cbn [calls].
      rewrite <- app_assoc. reflexivity.
    + rewrite <- app_assoc. reflexivity.
Qed.

End Callback.

(** *** The store across a callback *)

Section Store.

Variable hmac : jwt.SigningMethod -> string -> jwt.SigningInput -> string.
Variable now : Z.
Variable issuer : Issuer.

(** The three ways the handler ends: on a panic or with an error and no
    principal, the store untouched in both cases, or as the linking step
    run on the store it was given. *)
Lemma handler_cases :
  forall provider req session w,
    (exists msg w0,
        defaultAuthorizeHandler hmac now issuer provider req session w
        = (Panic msg, w0) /\ db w0 = db w) \/
    (exists e w0,
        defaultAuthorizeHandler hmac now issuer provider req session w
        = (Return None (Some e), w0) /\ db w0 = db w) \/
    (exists id w0,
        defaultAuthorizeHandler hmac now issuer provider req session w
        = linkIdentity provider session id w0 /\ db w0 = db w).
Proof.
  intros provider req session w. unfold defaultAuthorizeHandler.
  destruct (jwt.Parse hmac now (State req) (keyFunc session))
    as [[token |] err].
  - destruct (rejected token).
    + right. left. eexists _, _. split; reflexivity.
    + destruct err as [e |].
      * right. left. eexists _, _. split; reflexivity.
      * destruct (Exchange issuer _ _) as [e | tkn].
        -- right. left. eexists _, _. split; reflexivity.
        -- cbn [db calls]. destruct (UsersGet_ issuer tkn) as [e | user].
           ++ right. left. eexists _, _. split; reflexivity.
           ++ destruct (ID user) as [id |].
              ** right. right. eexists _, _. split; reflexivity.
              ** left. eexists _, _. split; reflexivity.
  - left. eexists _, _. split; reflexivity.
Qed.

(** What the linking step does to the tables: it appends at most one
    identity and at most one user, a user only under a user model, and an
    identity only under a key the table did not have. *)
Lemma linkIdentity_store :
  forall provider session id w,
    exists li lu,
      identities (db (snd (linkIdentity provider session id w)))
      = (identities (db w) ++ li)%list /\
      users (db (snd (linkIdentity provider session id w)))
      = (users (db w) ++ lu)%list /\
      (length li <= 1)%nat /\ (length lu <= 1)%nat /\
      (UserModel session = false -> lu = []) /\
      (forall r, In r li ->
                 KeyAbsent (Provider r) (UID r) (identities (db w))).
Proof.
  intros provider session id w. unfold linkIdentity, GetName.
  destruct (Scan (db w) _ _) as [authInfo scanned] eqn:Hscan.
  destruct (RecordNotFound scanned) eqn:Hnf; cbn [negb].
  - destruct (Scan_not_found _ _ _ _ _ Hscan Hnf) as (Hs & Habs & ->).
    cbn [Provider UID].
    destruct (UserModel session).
    + unfold Create. destruct (createError (db w)) as [e |].
      * exists [], []. cbn. rewrite !app_nil_r. repeat split; auto.
        intros r [].
      * unfold FirstOrCreate, withTables.
        cbn [scanError firstOrCreateError identities users PK].
        rewrite Hs, (find_key_absent _ _ _ Habs).
        destruct (firstOrCreateError (db w)) as [e |].
        -- exists [], [{| PK := nextPK (db w) |}]. cbn. rewrite app_nil_r.
           repeat split; auto. { discriminate. } intros r [].
        -- eexists [_], [{| PK := nextPK (db w) |}]. cbn.
           repeat split; auto. { discriminate. }
           intros r [<- | []]. exact Habs.
    + unfold FirstOrCreate, withTables.
      rewrite Hs, (find_key_absent _ _ _ Habs).
      destruct (firstOrCreateError (db w)) as [e |].
      * exists [], []. cbn. rewrite !app_nil_r. repeat split; auto.
        intros r [].
      * eexists [_], []. cbn. rewrite app_nil_r. repeat split; auto.
        intros r [<- | []]. exact Habs.
  - exists [], []. rewrite !app_nil_r.
    assert (Hsame : db (snd (if UserModel session
                             then if String.eqb (UserID authInfo) ""
                                  then (Return None (Some ErrInvalidAccount), w)
                                  else let '(currentUser, err) :=
                                         First (db w) (UserID authInfo) in
                                       (Return (Some (User currentUser)) err, w)
                             else (Return (Some (Identity authInfo)) None, w)))
                    = db w).
    { destruct (UserModel session); [| reflexivity].
      destruct (String.eqb (UserID authInfo) ""); [reflexivity |].
      destruct (First (db w) (UserID authInfo)). reflexivity. }
    rewrite Hsame. repeat split; auto. intros r [].
Qed.

(** The handler never removes or rewrites a row: whatever the callback,
    the identity table and the user table after it are the tables before
    it with at most one row appended to each, and no user row is appended
    when no user model is configured. *)
Theorem handler_store_append_only :
  forall provider req session w,
    exists li lu,
      identities
        (db (snd (defaultAuthorizeHandler hmac now issuer provider req session w)))
      = (identities (db w) ++ li)%list /\
      users
        (db (snd (defaultAuthorizeHandler hmac now issuer provider req session w)))
      = (users (db w) ++ lu)%list /\
      (length li <= 1)%nat /\ (length lu <= 1)%nat /\
      (UserModel session = false -> lu = []).
Proof.
  intros provider req session w.
  destruct (handler_cases provider req session w)
    as [(msg & w0 & H & Hdb) | [(e & w0 & H & Hdb) | (id & w0 & H & Hdb)]];
    rewrite H.
  - exists [], []. cbn. rewrite Hdb, !app_nil_r. repeat split; auto.
  - exists [], []. cbn. rewrite Hdb, !app_nil_r. repeat split; auto.
  - destruct (linkIdentity_store provider session id w0)
      as (li & lu & Hi & Hu & Hli & Hlu & Hnone & _).
    exists li, lu. rewrite Hi, Hu, Hdb. repeat split; assumption.
Qed.

(** The handler keeps the invariant of the identity table: if no two rows
    shared a (provider, uid) before the callback, none do after it. *)
Theorem handler_preserves_key_uniqueness :
  forall provider req session w,
    KeyUnique (identities (db w)) ->
    KeyUnique
      (identities
         (db (snd (defaultAuthorizeHandler hmac now issuer provider req session w)))).
Proof.
  intros provider req session w Huniq.
  destruct (handler_cases provider req session w)
    as [(msg & w0 & H & Hdb) | [(e & w0 & H & Hdb) | (id & w0 & H & Hdb)]];
    rewrite H.
  - cbn. rewrite Hdb. exact Huniq.
  - cbn. rewrite Hdb. exact Huniq.
  - destruct (linkIdentity_store provider session id w0)
      as (li & lu & Hi & _ & Hli & _ & _ & Habs).
    rewrite Hi, Hdb. rewrite Hdb in Habs.
    destruct li as [| r [| r' li]].
    + rewrite app_nil_r. exact Huniq.
    + apply KeyUnique_snoc; [exact Huniq |]. apply Habs. left. reflexivity.
    + cbn in Hli. lia.
Qed.

(** What the linking step returns: a user under a user model, an identity
    otherwise, and never a nil principal without an error. *)
Lemma linkIdentity_principal :
  forall provider session id w p err,
    fst (linkIdentity provider session id w) = Return p err ->
    (p = None -> err <> None) /\
    (forall q, p = Some q ->
               if UserModel session then exists u, q = User u
               else exists b, q = Identity b).
Proof.
  intros provider session id w p err. unfold linkIdentity.
  destruct (Scan (db w) _ _) as [authInfo scanned].
  destruct (negb (RecordNotFound scanned)).
  - destruct (UserModel session).
    + destruct (String.eqb (UserID authInfo) "").
      * cbn. intros H. injection H as <- <-.
        split; [discriminate | intros q Hq; discriminate].
      * destruct (First (db w) (UserID authInfo)) as [u e]. cbn.
        intros H. injection H as <- <-.
        split; [discriminate |]. intros q Hq. injection Hq as <-.
        eexists. reflexivity.
    + cbn. intros H. injection H as <- <-.
      split; [discriminate |]. intros q Hq. injection Hq as <-.
      eexists. reflexivity.
  - destruct (UserModel session).
    + destruct (Create (db w)) as [[tx u] [e |]].
      * cbn. intros H. injection H as <- <-.
        split; [discriminate | intros q Hq; discriminate].
      * destruct (FirstOrCreate tx _) as [[tx' b] e]. cbn.
        intros H. injection H as <- <-.
        split; [discriminate |]. intros q Hq. injection Hq as <-.
        eexists. reflexivity.
    + destruct (FirstOrCreate (db w) _) as [[tx' b] e]. cbn.
      intros H. injection H as <- <-.
      split; [discriminate |]. intros q Hq. injection Hq as <-.
      eexists. reflexivity.
Qed.

(** Whenever the handler returns, it returns a principal or an error (never
    neither), and the principal is a user row exactly when a user model is
    configured and an identity row otherwise. *)
Theorem handler_principal_kind :
  forall provider req session w p err,
    fst (defaultAuthorizeHandler hmac now issuer provider req session w)
    = Return p err ->
    (p = None -> err <> None) /\
    (forall q, p = Some q ->
               if UserModel session then exists u, q = User u
               else exists b, q = Identity b).
Proof.
  intros provider req session w p err.
  destruct (handler_cases provider req session w)
    as [(msg & w0 & H & _) | [(e & w0 & H & _) | (id & w0 & H & _)]];
    rewrite H; cbn [fst].
  - discriminate.
  - intros Hr. injection Hr as <- <-.
    split; [discriminate | intros q Hq; discriminate].
  - apply linkIdentity_principal.
Qed.

End Store.

(** *** Returning logins *)

(** The lookup condition built for one profile id matches no row that the
    condition built for another id matches: two accounts of the issuer
    never meet in one identity row. *)
Theorem distinct_ids_distinct_rows :
  forall id id' r,
    id <> id' ->
    matches {| Provider := "github"; UID := Sprint id; UserID := "" |} r = true ->
    matches {| Provider := "github"; UID := Sprint id'; UserID := "" |} r = false.
Proof.
  intros id id' r Hne Hm. apply matches_key in Hm. destruct Hm as [_ Hu].
  destruct (matches _ r) eqn:Hm'; [| reflexivity].
  apply matches_key in Hm'. destruct Hm' as [_ Hu'].
  exfalso. apply Hne. apply Sprint_inj. congruence.
Qed.

Lemma find_key_appended :
  forall rows id userId,
    KeyAbsent "github" (Sprint id) rows ->
    find (matches {| Provider := "github"; UID := Sprint id; UserID := "" |})
         (rows ++ [{| Provider := "github"; UID := Sprint id;
                      UserID := userId |}])
    = Some {| Provider := "github"; UID := Sprint id; UserID := userId |}.
Proof.
  intros rows id userId Habs. apply find_snoc_new.
  - intros x Hx. destruct (matches _ x) eqn:Hm; [| reflexivity].
    exfalso. apply matches_key in Hm. exact (Habs x Hx Hm).
  - apply matches_key. split; reflexivity.
Qed.

Section Returning.

Variable hmac : jwt.SigningMethod -> string -> jwt.SigningInput -> string.
Variable now : Z.
Variable issuer : Issuer.
Variable provider : GithubProvider.
Variable req : Request.
Variable session : Session.
Variable w : World.

(** A returning login under a user model, on a store that answers its
    lookups: when the identity for (provider, uid) is bound to the
    rendering of a key (not negative) that a user row has, that user is
    the principal, no error is returned and the store is as it was. *)
Theorem returning_login_returns_bound_user :
  forall tkn user id row pk,
    snd (jwt.Parse hmac now (State req) (keyFunc session)) = None ->
    Exchange issuer (OAuthConfig provider req session) (Code req) = inr tkn ->
    UsersGet_ issuer tkn = inr user ->
    ID user = Some id ->
    UserModel session = true ->
    scanError (db w) = None ->
    firstError (db w) = None ->
    In row (identities (db w)) ->
    Provider row = "github" -> UID row = Sprint id ->
    KeyUnique (identities (db w)) ->
    (0 <= pk)%Z ->
    UserID row = Sprint pk ->
    In {| PK := pk |} (users (db w)) ->
    defaultAuthorizeHandler hmac now issuer provider req session w
    = (Return (Some (User {| PK := pk |})) None,
       {| db := db w;
          calls := (calls w ++
                    [TokenExchange (OAuthConfig provider req session)
                       (Code req)]) ++ [UsersGet tkn] |}).
Proof.
  intros tkn user id row pk Herr Hex Hget Hid Hum Hs Hfe Hin Hp Hu Huniq
         Hpk Hbound Huser.
  rewrite (handler_reaches_linker hmac now issuer provider req session w
             _ _ _ Herr Hex Hget Hid).
  unfold linkIdentity, GetName. cbn [db calls].
  rewrite (Scan_present _ _ _ _ Hs Hin Hp Hu Huniq).
  cbn [RecordNotFound negb]. rewrite Hum, Hbound.
  pose proof (Sprint_nonempty pk) as Hne. apply String.eqb_neq in Hne.
  rewrite Hne. unfold First. rewrite (numericKey_Sprint _ Hpk), Hfe.
  destruct (find _ (users (db w))) as [u |] eqn:Hf.
  - apply find_some in Hf. destruct Hf as [_ Hf].
    apply Z.eqb_eq in Hf. destruct u as [k]. cbn in Hf. subst k.
    reflexivity.
  - exfalso. pose proof (find_none _ _ Hf _ Huser) as Hn. cbn in Hn.
    rewrite Z.eqb_refl in Hn. discriminate.
Qed.

(** When the identity is bound to a user id of decimal digits whose
    number no user row has as its key, on a store that answers its
    lookups, the handler returns gorm's record-not-found error together
    with an empty user, and the store is as it was. *)
Theorem dangling_identity_record_not_found :
  forall tkn user id row n,
    snd (jwt.Parse hmac now (State req) (keyFunc session)) = None ->
    Exchange issuer (OAuthConfig provider req session) (Code req) = inr tkn ->
    UsersGet_ issuer tkn = inr user ->
    ID user = Some id ->
    UserModel session = true ->
    scanError (db w) = None ->
    firstError (db w) = None ->
    In row (identities (db w)) ->
    Provider row = "github" -> UID row = Sprint id ->
    KeyUnique (identities (db w)) ->
    numericKey (UserID row) = Some n ->
    (forall u, In u (users (db w)) -> PK u <> n) ->
    defaultAuthorizeHandler hmac now issuer provider req session w
    = (Return (Some (User zeroUser)) (Some ErrRecordNotFound),
       {| db := db w;
          calls := (calls w ++
                    [TokenExchange (OAuthConfig provider req session)
                       (Code req)]) ++ [UsersGet tkn] |}).
Proof.
  intros tkn user id row n Herr Hex Hget Hid Hum Hs Hfe Hin Hp Hu Huniq
         Hnum Hnone.
  rewrite (handler_reaches_linker hmac now issuer provider req session w
             _ _ _ Herr Hex Hget Hid).
  unfold linkIdentity, GetName. cbn [db calls].
  rewrite (Scan_present _ _ _ _ Hs Hin Hp Hu Huniq).
  cbn [RecordNotFound negb]. rewrite Hum.
  assert (Hne : String.eqb (UserID row) "" = false).
  { destruct (UserID row); [discriminate | reflexivity]. }
  rewrite Hne. unfold First. rewrite Hnum, Hfe.
  destruct (find _ (users (db w))) as [u |] eqn:Hf.
  - exfalso. apply find_some in Hf. destruct Hf as [Hu' Hf].
    apply Z.eqb_eq in Hf. exact (Hnone u Hu' Hf).
  - reflexivity.
Qed.

(** When the lookup of the identity fails with an error of the backend,
    line 99 takes it for a hit: the store is left as it was and nothing is
    inserted; under a user model the handler returns [ErrInvalidAccount],
    and without one it returns the identity data it had built, with no
    error. *)
Theorem lookup_failure_taken_as_found :
  forall tkn user id msg,
    snd (jwt.Parse hmac now (State req) (keyFunc session)) = None ->
    Exchange issuer (OAuthConfig provider req session) (Code req) = inr tkn ->
    UsersGet_ issuer tkn = inr user ->
    ID user = Some id ->
    scanError (db w) = Some msg ->
    defaultAuthorizeHandler hmac now issuer provider req session w
    = (if UserModel session
       then Return None (Some ErrInvalidAccount)
       else Return (Some (Identity {| Provider := "github"; UID := Sprint id;
                                      UserID := "" |})) None,
       {| db := db w;
          calls := (calls w ++
                    [TokenExchange (OAuthConfig provider req session)
                       (Code req)]) ++ [UsersGet tkn] |}).
Proof.
  intros tkn user id msg Herr Hex Hget Hid Hs.
  rewrite (handler_reaches_linker hmac now issuer provider req session w
             _ _ _ Herr Hex Hget Hid).
  unfold linkIdentity, GetName. cbn [db calls].
  rewrite (Scan_failed _ _ _ _ Hs). cbn [RecordNotFound negb UserID].
  destruct (UserModel session); reflexivity.
Qed.

Variable req' : Request.

(** Two logins of one issuer account in a row, each with its own request,
    without a user model and on a store that answers its lookups: the
    first creates the identity row, the second returns the data of that
    row and leaves the store as the first left it, so the key has one
    row. *)
Theorem second_login_finds_identity :
  forall tkn user tkn' user' id,
    snd (jwt.Parse hmac now (State req) (keyFunc session)) = None ->
    Exchange issuer (OAuthConfig provider req session) (Code req) = inr tkn ->
    UsersGet_ issuer tkn = inr user ->
    ID user = Some id ->
    snd (jwt.Parse hmac now (State req') (keyFunc session)) = None ->
    Exchange issuer (OAuthConfig provider req' session) (Code req') = inr tkn' ->
    UsersGet_ issuer tkn' = inr user' ->
    ID user' = Some id ->
    UserModel session = false ->
    scanError (db w) = None ->
    KeyAbsent "github" (Sprint id) (identities (db w)) ->
    firstOrCreateError (db w) = None ->
    let first := defaultAuthorizeHandler hmac now issuer provider req session w in
    let second :=
      defaultAuthorizeHandler hmac now issuer provider req' session (snd first) in
    fst first
    = Return (Some (Identity {| Provider := "github"; UID := Sprint id;
                                UserID := "" |})) None /\
    fst second
    = Return (Some (Identity {| Provider := "github"; UID := Sprint id;
                                UserID := "" |})) None /\
    db (snd second) = db (snd first) /\
    identities (db (snd second))
    = (identities (db w) ++
       [{| Provider := "github"; UID := Sprint id; UserID := "" |}])%list.
Proof.
  intros tkn user tkn' user' id Herr Hex Hget Hid Herr' Hex' Hget' Hid'
         Hum Hs Habs Hfoc first second.
  assert (H1 : first
               = (Return (Some (Identity {| Provider := "github";
                                            UID := Sprint id;
                                            UserID := "" |})) None,
                  {| db := withTables (db w)
                             (identities (db w) ++
                              [{| Provider := "github"; UID := Sprint id;
                                  UserID := "" |}])
                             (users (db w)) (nextPK (db w));
                     calls := (calls w ++
                               [TokenExchange (OAuthConfig provider req session)
                                  (Code req)]) ++ [UsersGet tkn] |})).
  { unfold first.
    rewrite (handler_reaches_linker hmac now issuer provider req session w
               _ _ _ Herr Hex Hget Hid).
    unfold linkIdentity, GetName. cbn [db calls].
    rewrite (Scan_absent _ _ _ Hs Habs). cbn [RecordNotFound negb].
    rewrite Hum. unfold FirstOrCreate.
    rewrite Hs, (find_key_absent _ _ "" Habs), Hfoc. reflexivity. }
  assert (H2 : second
               = (Return (Some (Identity {| Provider := "github";
                                            UID := Sprint id;
                                            UserID := "" |})) None,
                  {| db := db (snd first);
                     calls := (calls (snd first) ++
                               [TokenExchange
                                  (OAuthConfig provider req' session)
                                  (Code req')]) ++ [UsersGet tkn'] |})).
  { unfold second.
    rewrite (handler_reaches_linker hmac now issuer provider req' session
               (snd first) _ _ _ Herr' Hex' Hget' Hid').
    rewrite H1. cbn [fst snd db calls].
    unfold linkIdentity, GetName, Scan, withTables.
    cbn [db calls identities scanError].
    rewrite Hs, (find_key_appended _ _ "" Habs).
    cbn [RecordNotFound negb]. rewrite Hum. reflexivity. }
  rewrite H2. cbn [fst snd db]. rewrite H1. cbn [fst snd db].
  unfold withTables. cbn [identities].
  repeat split; reflexivity.
Qed.

(** Two logins of one issuer account in a row, each with its own request,
    under a user model, on a store that answers its lookups and whose next
    key is not negative and not taken: the first creates the user and the
    identity bound to it, the second returns that user without error and
    leaves the store as the first left it. *)
Theorem second_login_finds_user :
  forall tkn user tkn' user' id,
    snd (jwt.Parse hmac now (State req) (keyFunc session)) = None ->
    Exchange issuer (OAuthConfig provider req session) (Code req) = inr tkn ->
    UsersGet_ issuer tkn = inr user ->
    ID user = Some id ->
    snd (jwt.Parse hmac now (State req') (keyFunc session)) = None ->
    Exchange issuer (OAuthConfig provider req' session) (Code req') = inr tkn' ->
    UsersGet_ issuer tkn' = inr user' ->
    ID user' = Some id ->
    UserModel session = true ->
    scanError (db w) = None ->
    firstError (db w) = None ->
    KeyAbsent "github" (Sprint id) (identities (db w)) ->
    createError (db w) = None ->
    firstOrCreateError (db w) = None ->
    (0 <= nextPK (db w))%Z ->
    (forall u, In u (users (db w)) -> PK u <> nextPK (db w)) ->
    let first := defaultAuthorizeHandler hmac now issuer provider req session w in
    let second :=
      defaultAuthorizeHandler hmac now issuer provider req' session (snd first) in
    fst first = Return (Some (User {| PK := nextPK (db w) |})) None /\
    fst second = Return (Some (User {| PK := nextPK (db w) |})) None /\
    db (snd second) = db (snd first) /\
    identities (db (snd second))
    = (identities (db w) ++
       [{| Provider := "github"; UID := Sprint id;
           UserID := Sprint (nextPK (db w)) |}])%list /\
    users (db (snd second))
    = (users (db w) ++ [{| PK := nextPK (db w) |}])%list.
Proof.
  intros tkn user tkn' user' id Herr Hex Hget Hid Herr' Hex' Hget' Hid'
         Hum Hs Hfe Habs Hc Hfoc Hpk Hfresh first second.
  assert (H1 : first
               = (Return (Some (User {| PK := nextPK (db w) |})) None,
                  {| db := withTables
                             (withTables (db w) (identities (db w))
                                (users (db w) ++ [{| PK := nextPK (db w) |}])
                                (nextPK (db w) + 1))
                             (identities (db w) ++
                              [{| Provider := "github"; UID := Sprint id;
                                  UserID := Sprint (nextPK (db w)) |}])
                             (users (db w) ++ [{| PK := nextPK (db w) |}])
                             (nextPK (db w) + 1);
                     calls := (calls w ++
                               [TokenExchange (OAuthConfig provider req session)
                                  (Code req)]) ++ [UsersGet tkn] |})).
  { unfold first.
    rewrite (handler_reaches_linker hmac now issuer provider req session w
               _ _ _ Herr Hex Hget Hid).
    unfold linkIdentity, GetName. cbn [db calls].
    rewrite (Scan_absent _ _ _ Hs Habs). cbn [RecordNotFound negb].
    rewrite Hum. unfold Create. rewrite Hc.
    unfold FirstOrCreate.
    cbn [withTables scanError firstOrCreateError identities users nextPK
         PK Provider UID].
    rewrite Hs, (find_key_absent _ _ _ Habs), Hfoc. reflexivity. }
  assert (H2 : second
               = (Return (Some (User {| PK := nextPK (db w) |})) None,
                  {| db := db (snd first);
                     calls := (calls (snd first) ++
                               [TokenExchange
                                  (OAuthConfig provider req' session)
                                  (Code req')]) ++ [UsersGet tkn'] |})).
  { unfold second.
    rewrite (handler_reaches_linker hmac now issuer provider req' session
               (snd first) _ _ _ Herr' Hex' Hget' Hid').
    rewrite H1. cbn [fst snd db calls].
    unfold linkIdentity, GetName, Scan.
    cbn [db calls withTables identities scanError].
    rewrite Hs, (find_key_appended _ _ _ Habs).
    cbn [RecordNotFound negb UserID]. rewrite Hum.
    pose proof (Sprint_nonempty (nextPK (db w))) as Hne.
    apply String.eqb_neq in Hne. rewrite Hne.
    unfold First. rewrite (numericKey_Sprint _ Hpk).
    cbn [withTables users firstError]. rewrite Hfe.
    rewrite (find_snoc_new _ _ (users (db w)) {| PK := nextPK (db w) |}).
    - reflexivity.
    - intros x Hx. apply Z.eqb_neq. exact (Hfresh x Hx).
    - cbn. apply Z.eqb_refl. }
  rewrite H2. cbn [fst snd db]. rewrite H1.
  cbn [fst snd db withTables identities users].
  repeat split; reflexivity.
Qed.

End Returning.

(** *** The further properties at work on the concrete host *)

Lemma built_provider_client_config_witness :
  oauth2.AuthURL
    (oauth2.Endpoint_
       (OAuthConfig (Scenario.built Scenario.bareConfig)
          (Scenario.request "" jwt.BadSegments) (Scenario.session false)))
  = "https://github.com/login/oauth/authorize" /\
  oauth2.TokenURL
    (oauth2.Endpoint_
       (OAuthConfig (Scenario.built Scenario.bareConfig)
          (Scenario.request "" jwt.BadSegments) (Scenario.session false)))
  = "https://github.com/login/oauth/access_token".
Proof.
  destruct (built_provider_client_config Scenario.mac 0 (Scenario.issuer 42)
              Scenario.bareConfig (Scenario.built Scenario.bareConfig)
              (Scenario.request "" jwt.BadSegments) (Scenario.session false)
              eq_refl)
    as (_ & _ & _ & _ & _ & _ & Ha & Ht & _).
  split; [apply Ha | apply Ht]; reflexivity.
Defined.

Lemma New_idempotent_witness :
  New Scenario.mac 0 (Scenario.issuer 42)
    (Some (Config_ (Scenario.built Scenario.bareConfig)))
  = Built (Scenario.built Scenario.bareConfig).
Proof.
  apply (New_idempotent Scenario.mac 0 (Scenario.issuer 42)
           Scenario.bareConfig (Scenario.built Scenario.bareConfig)).
  reflexivity.
Defined.

Lemma New_keeps_custom_handler_witness :
  AuthorizeHandler (Config_ (Scenario.built Scenario.customConfig))
  = Some Scenario.denyAll.
Proof.
  apply (New_keeps_custom_handler Scenario.mac 0 (Scenario.issuer 42)
           Scenario.customConfig Scenario.denyAll
           (Scenario.built Scenario.customConfig)).
  - reflexivity.
  - reflexivity.
Defined.

Lemma Login_of_built_provider_witness :
  oauth2.endpoint
    (Location (Login Scenario.mac (Scenario.built Scenario.bareConfig)
                 (Scenario.request "" jwt.BadSegments)
                 (Scenario.session false)))
  = "https://github.com/login/oauth/authorize" /\
  oauth2.client_id
    (Location (Login Scenario.mac (Scenario.built Scenario.bareConfig)
                 (Scenario.request "" jwt.BadSegments)
                 (Scenario.session false)))
  = "x".
Proof.
  destruct (Login_of_built_provider Scenario.mac 0 (Scenario.issuer 42)
              Scenario.bareConfig (Scenario.built Scenario.bareConfig)
              (Scenario.request "" jwt.BadSegments) (Scenario.session false)
              eq_refl)
    as (_ & He & _ & Hc & _).
  split; [exact He | exact Hc].
Defined.

Lemma Login_unsignable_state_witness :
  oauth2.state
    (Location (Login Scenario.mac Scenario.provider
                 (Scenario.request "" jwt.BadSegments) Scenario.rsaSession))
  = jwt.BadSegments /\
  defaultAuthorizeHandler Scenario.mac 0 (Scenario.issuer 42)
    Scenario.provider (Scenario.request "" jwt.BadSegments)
    Scenario.rsaSession (Scenario.world Scenario.emptyDB)
  = (Panic "nil pointer dereference", Scenario.world Scenario.emptyDB).
Proof.
  destruct (Login_unsignable_state Scenario.mac 0 (Scenario.issuer 42)
              Scenario.provider (Scenario.request "" jwt.BadSegments)
              (Scenario.request "" jwt.BadSegments) Scenario.rsaSession
              (Scenario.world Scenario.emptyDB) eq_refl)
    as (Hs & _ & Hp).
  split; [exact Hs | apply Hp; reflexivity].
Defined.

Lemma refused_state_no_effect_witness :
  snd (defaultAuthorizeHandler Scenario.mac 0 (Scenario.issuer 42)
         Scenario.provider (Scenario.callback Scenario.forger)
         (Scenario.session false) (Scenario.world Scenario.emptyDB))
  = Scenario.world Scenario.emptyDB.
Proof.
  apply (refused_state_no_effect Scenario.mac 0 (Scenario.issuer 42)
           Scenario.provider (Scenario.callback Scenario.forger)
           (Scenario.session false) (Scenario.world Scenario.emptyDB)
           (ValidationError (Some jwt.ErrSignatureInvalid) ""
              jwt.ValidationErrorSignatureInvalid)).
  reflexivity.
Defined.

Lemma non_hmac_session_accepts_nothing_witness :
  snd (defaultAuthorizeHandler Scenario.mac 0 (Scenario.issuer 42)
         Scenario.provider (Scenario.callback (Scenario.session false))
         Scenario.rsaSession (Scenario.world Scenario.emptyDB))
  = Scenario.world Scenario.emptyDB.
Proof.
  apply (non_hmac_session_accepts_nothing Scenario.mac 0 (Scenario.issuer 42)
           Scenario.provider (Scenario.callback (Scenario.session false))
           Scenario.rsaSession (Scenario.world Scenario.emptyDB)).
  reflexivity.
Defined.

Lemma unsigned_state_never_accepted_witness :
  exists e,
    defaultAuthorizeHandler Scenario.mac 0 (Scenario.issuer 42)
      Scenario.provider
      (Scenario.request ""
         (jwt.Compact (Some "none") [("sub", jwt.VString "state")] ""))
      (Scenario.session false) (Scenario.world Scenario.emptyDB)
    = (Return None (Some e), Scenario.world Scenario.emptyDB).
Proof.
  apply (unsigned_state_never_accepted Scenario.mac 0 (Scenario.issuer 42)
           Scenario.provider
           (Scenario.request ""
              (jwt.Compact (Some "none") [("sub", jwt.VString "state")] ""))
           (Scenario.session false) (Scenario.world Scenario.emptyDB)
           [("sub", jwt.VString "state")] "").
  reflexivity.
Defined.

Lemma exchange_failure_propagates_witness :
  defaultAuthorizeHandler Scenario.mac 0 Scenario.issuerDown
    Scenario.provider (Scenario.callback (Scenario.session true))
    (Scenario.session true) (Scenario.world Scenario.emptyDB)
  = (Return None (Some (ErrorString "oauth2: cannot fetch token")),
     {| db := Scenario.emptyDB;
        calls := [] ++
                 [TokenExchange
                    (OAuthConfig Scenario.provider
                       (Scenario.callback (Scenario.session true))
                       (Scenario.session true)) "c0de"] |}).
Proof.
  apply (exchange_failure_propagates Scenario.mac 0 Scenario.issuerDown
           Scenario.provider (Scenario.callback (Scenario.session true))
           (Scenario.session true) (Scenario.world Scenario.emptyDB)).
  - reflexivity.
  - reflexivity.
Defined.

Lemma profile_failure_propagates_witness :
  defaultAuthorizeHandler Scenario.mac 0 Scenario.issuerNoProfile
    Scenario.provider (Scenario.callback (Scenario.session true))
    (Scenario.session true) (Scenario.world Scenario.emptyDB)
  = (Return None (Some (ErrorString "GET /user: 500")),
     {| db := Scenario.emptyDB;
        calls := ([] ++
                  [TokenExchange
                     (OAuthConfig Scenario.provider
                        (Scenario.callback (Scenario.session true))
                        (Scenario.session true)) "c0de"]) ++ [UsersGet "t"] |}).
Proof.
  apply (profile_failure_propagates Scenario.mac 0 Scenario.issuerNoProfile
           Scenario.provider (Scenario.callback (Scenario.session true))
           (Scenario.session true) (Scenario.world Scenario.emptyDB)).
  - reflexivity.
  - reflexivity.
  - reflexivity.
Defined.

Lemma profile_without_id_panics_witness :
  defaultAuthorizeHandler Scenario.mac 0 Scenario.issuerNoId
    Scenario.provider (Scenario.callback (Scenario.session true))
    (Scenario.session true) (Scenario.world Scenario.emptyDB)
  = (Panic "nil pointer dereference",
     {| db := Scenario.emptyDB;
        calls := ([] ++
                  [TokenExchange
                     (OAuthConfig Scenario.provider
                        (Scenario.callback (Scenario.session true))
                        (Scenario.session true)) "c0de"]) ++ [UsersGet "t"] |}).
Proof.
  apply (profile_without_id_panics Scenario.mac 0 Scenario.issuerNoId
           Scenario.provider (Scenario.callback (Scenario.session true))
           (Scenario.session true) (Scenario.world Scenario.emptyDB)
           "t" {| ID := None |}).
  - reflexivity.
  - reflexivity.
  - reflexivity.
  - reflexivity.
Defined.

Lemma handler_preserves_key_uniqueness_witness :
  KeyUnique
    (identities
       (db (snd (defaultAuthorizeHandler Scenario.mac 0 (Scenario.issuer 9)
                   Scenario.provider
                   (Scenario.callback (Scenario.session false))
                   (Scenario.session false)
                   (Scenario.world Scenario.knownDB))))).
Proof.
  apply (handler_preserves_key_uniqueness Scenario.mac 0 (Scenario.issuer 9)
           Scenario.provider (Scenario.callback (Scenario.session false))
           (Scenario.session false) (Scenario.world Scenario.knownDB)).
  intros r1 r2 H1 H2 _ _. simpl in H1, H2.
  destruct H1 as [H1 | []]. destruct H2 as [H2 | []].
  rewrite <- H1, <- H2. reflexivity.
Defined.

Lemma handler_principal_kind_witness :
  exists b,
    Identity {| Provider := "github"; UID := "42"; UserID := "" |}
    = Identity b.
Proof.
  apply (proj2
           (handler_principal_kind Scenario.mac 0 (Scenario.issuer 42)
              Scenario.provider (Scenario.callback (Scenario.session false))
              (Scenario.session false) (Scenario.world Scenario.emptyDB)
              (Some (Identity {| Provider := "github"; UID := "42";
                                 UserID := "" |}))
              None eq_refl)
           (Identity {| Provider := "github"; UID := "42"; UserID := "" |})
           eq_refl).
Defined.

Lemma distinct_ids_distinct_rows_witness :
  matches {| Provider := "github"; UID := Sprint 42; UserID := "" |}
    {| Provider := "github"; UID := "7"; UserID := "123" |} = false.
Proof.
  apply (distinct_ids_distinct_rows 7 42
           {| Provider := "github"; UID := "7"; UserID := "123" |}).
  - discriminate.
  - reflexivity.
Defined.

Lemma returning_login_returns_bound_user_witness :
  defaultAuthorizeHandler Scenario.mac 0 (Scenario.issuer 7)
    Scenario.provider (Scenario.callback (Scenario.session true))
    (Scenario.session true) (Scenario.world Scenario.boundDB)
  = (Return (Some (User {| PK := 123 |})) None,
     {| db := Scenario.boundDB;
        calls := ([] ++
                  [TokenExchange
                     (OAuthConfig Scenario.provider
                        (Scenario.callback (Scenario.session true))
                        (Scenario.session true)) "c0de"]) ++ [UsersGet "t"] |}).
Proof.
  apply (returning_login_returns_bound_user Scenario.mac 0 (Scenario.issuer 7)
           Scenario.provider (Scenario.callback (Scenario.session true))
           (Scenario.session true) (Scenario.world Scenario.boundDB)
           "t" {| ID := Some 7%Z |} 7%Z
           {| Provider := "github"; UID := "7"; UserID := "123" |} 123%Z).
  - reflexivity.
  - reflexivity.
  - reflexivity.
  - reflexivity.
  - reflexivity.
  - reflexivity.
  - reflexivity.
  - simpl. left. reflexivity.
  - reflexivity.
  - reflexivity.
  - intros r1 r2 H1 H2 _ _. simpl in H1, H2.
    destruct H1 as [H1 | []]. destruct H2 as [H2 | []].
    rewrite <- H1, <- H2. reflexivity.
  - lia.
  - reflexivity.
  - simpl. left. reflexivity.
Defined.

Lemma dangling_identity_record_not_found_witness :
  defaultAuthorizeHandler Scenario.mac 0 (Scenario.issuer 7)
    Scenario.provider (Scenario.callback (Scenario.session true))
    (Scenario.session true) (Scenario.world Scenario.danglingDB)
  = (Return (Some (User zeroUser)) (Some ErrRecordNotFound),
     {| db := Scenario.danglingDB;
        calls := ([] ++
                  [TokenExchange
                     (OAuthConfig Scenario.provider
                        (Scenario.callback (Scenario.session true))
                        (Scenario.session true)) "c0de"]) ++ [UsersGet "t"] |}).
Proof.
  apply (dangling_identity_record_not_found Scenario.mac 0 (Scenario.issuer 7)
           Scenario.provider (Scenario.callback (Scenario.session true))
           (Scenario.session true) (Scenario.world Scenario.danglingDB)
           "t" {| ID := Some 7%Z |} 7%Z
           {| Provider := "github"; UID := "7"; UserID := "123" |} 123%Z).
  - reflexivity.
  - reflexivity.
  - reflexivity.
  - reflexivity.
  - reflexivity.
  - reflexivity.
  - reflexivity.
  - simpl. left. reflexivity.
  - reflexivity.
  - reflexivity.
  - intros r1 r2 H1 H2 _ _. simpl in H1, H2.
    destruct H1 as [H1 | []]. destruct H2 as [H2 | []].
    rewrite <- H1, <- H2. reflexivity.
  - reflexivity.
  - intros u H. simpl in H. destruct H.
Defined.

Lemma second_login_finds_identity_witness :
  fst (defaultAuthorizeHandler Scenario.mac 0 (Scenario.issuer 42)
         Scenario.provider (Scenario.laterCallback (Scenario.session false))
         (Scenario.session false)
         (snd (defaultAuthorizeHandler Scenario.mac 0 (Scenario.issuer 42)
                 Scenario.provider (Scenario.callback (Scenario.session false))
                 (Scenario.session false) (Scenario.world Scenario.emptyDB))))
  = Return (Some (Identity {| Provider := "github"; UID := Sprint 42;
                              UserID := "" |})) None.
Proof.
  pose proof (second_login_finds_identity Scenario.mac 0 (Scenario.issuer 42)
                Scenario.provider (Scenario.callback (Scenario.session false))
                (Scenario.session false) (Scenario.world Scenario.emptyDB)
                (Scenario.laterCallback (Scenario.session false))
                "t" {| ID := Some 42%Z |} "t" {| ID := Some 42%Z |} 42%Z
                eq_refl eq_refl eq_refl eq_refl
                eq_refl eq_refl eq_refl eq_refl
                eq_refl eq_refl
                (fun r (H : In r []) => match H with end) eq_refl) as H.
  cbv zeta in H. destruct H as (_ & H2 & _). exact H2.
Defined.

Lemma second_login_finds_user_witness :
  fst (defaultAuthorizeHandler Scenario.mac 0 (Scenario.issuer 7)
         Scenario.provider (Scenario.laterCallback (Scenario.session true))
         (Scenario.session true)
         (snd (defaultAuthorizeHandler Scenario.mac 0 (Scenario.issuer 7)
                 Scenario.provider (Scenario.callback (Scenario.session true))
                 (Scenario.session true) (Scenario.world Scenario.emptyDB))))
  = Return (Some (User {| PK := 123 |})) None.
Proof.
  assert (Hpk : (0 <= 123)%Z) by lia.
  pose proof (second_login_finds_user Scenario.mac 0 (Scenario.issuer 7)
                Scenario.provider (Scenario.callback (Scenario.session true))
                (Scenario.session true) (Scenario.world Scenario.emptyDB)
                (Scenario.laterCallback (Scenario.session true))
                "t" {| ID := Some 7%Z |} "t" {| ID := Some 7%Z |} 7%Z
                eq_refl eq_refl eq_refl eq_refl
                eq_refl eq_refl eq_refl eq_refl
                eq_refl eq_refl eq_refl
                (fun r (H : In r []) => match H with end) eq_refl eq_refl
                Hpk
                (fun u (H : In u []) => match H with end)) as H.
  cbv zeta in H. destruct H as (_ & H2 & _). exact H2.
Defined.

Lemma first_login_with_user_model_witness :
  exists w',
    defaultAuthorizeHandler Scenario.mac 0 (Scenario.issuer 7)
      Scenario.provider (Scenario.callback (Scenario.session true))
      (Scenario.session true) (Scenario.world Scenario.emptyDB)
    = (Return (Some (User {| PK := 123 |})) None, w')
    /\ users (db w') = ([] ++ [{| PK := 123 |}])%list
    /\ identities (db w')
       = ([] ++ [{| Provider := "github"; UID := Sprint 7;
                    UserID := Sprint 123 |}])%list.
Proof.
  apply (first_login_with_user_model Scenario.mac 0 (Scenario.issuer 7)
           Scenario.provider (Scenario.callback (Scenario.session true))
           (Scenario.session true) (Scenario.world Scenario.emptyDB)
           "t" {| ID := Some 7%Z |} 7%Z).
  - reflexivity.
  - reflexivity.
  - reflexivity.
  - reflexivity.
  - reflexivity.
  - reflexivity.
  - intros r H. simpl in H. destruct H.
  - reflexivity.
  - reflexivity.
Defined.

Lemma lookup_failure_taken_as_found_witness :
  defaultAuthorizeHandler Scenario.mac 0 (Scenario.issuer 7)
    Scenario.provider (Scenario.callback (Scenario.session true))
    (Scenario.session true) (Scenario.world Scenario.unreachableDB)
  = (if UserModel (Scenario.session true)
     then Return None (Some ErrInvalidAccount)
     else Return (Some (Identity {| Provider := "github"; UID := Sprint 7;
                                    UserID := "" |})) None,
     {| db := Scenario.unreachableDB;
        calls := ([] ++
                  [TokenExchange
                     (OAuthConfig Scenario.provider
                        (Scenario.callback (Scenario.session true))
                        (Scenario.session true)) "c0de"]) ++ [UsersGet "t"] |}).
Proof.
  apply (lookup_failure_taken_as_found Scenario.mac 0 (Scenario.issuer 7)
           Scenario.provider (Scenario.callback (Scenario.session true))
           (Scenario.session true) (Scenario.world Scenario.unreachableDB)
           "t" {| ID := Some 7%Z |} 7%Z "connection refused").
  - reflexivity.
  - reflexivity.
  - reflexivity.
  - reflexivity.
  - reflexivity.
Defined.
